(** * Reassigning every scheduler service to one nest

    A shallow embedding of [scripts/reassign-all-services.py].  The script
    talks to Redis through [redis-cli], decodes every value of the hash
    [scheduler:services] as JSON, overwrites its [nestId] field, stores the
    record again and finally rebuilds the list kept under
    [nest:<id>:services].

    Names follow the script: the specification calls the nest an "account"
    and the field [nestId] "ownerId"; the lookup key [nest:email:<email>]
    is its "account-by-email" key and [nest:<id>:services] its cached
    list.

    Text is modelled by [string] (one [ascii] per character), JSON numbers
    by [Z], a Python [dict] by an association list in insertion order. *)

From Stdlib Require Import ZArith Ascii String List Bool Lia.
From Stdlib Require Import Decimal DecimalString DecimalZ DecimalPos DecimalFacts.
From stdpp Require Import base strings list gmap.

(** ** Python string methods used by the script *)

Module PyStr.

(** [str.isspace] on the characters below 256: the ASCII controls 9 to
    13 and 28 to 32, the next-line control 133 and the no-break space
    160. *)
Definition isspace (c : ascii) : bool :=
  let n := nat_of_ascii c in
  ((9 <=? n) && (n <=? 13) || (28 <=? n) && (n <=? 32)
   || (n =? 133) || (n =? 160))%nat.

Fixpoint lstrip (p : ascii → bool) (s : string) : string :=
  match s with
  | String c s' => if p c then lstrip p s' else s
  | EmptyString => EmptyString
  end.

Fixpoint rstrip (p : ascii → bool) (s : string) : string :=
  match s with
  | String c s' =>
      match rstrip p s' with
      | EmptyString => if p c then EmptyString else String c EmptyString
      | r => String c r
      end
  | EmptyString => EmptyString
  end.

(** [s.strip(chars)], with the set [chars] given as a predicate. *)
Definition strip_chars (p : ascii → bool) (s : string) : string :=
  rstrip p (lstrip p s).

(** [s.strip()] *)
Definition strip (s : string) : string := strip_chars isspace s.

Definition at_boundary (s : string) : bool :=
  match s with
  | String c _ => isspace c
  | EmptyString => true
  end.

(** [s.split()]: the maximal runs of characters that are not spaces. *)
Fixpoint split (s : string) : list string :=
  match s with
  | EmptyString => []
  | String c s' =>
      if isspace c then split s'
      else if at_boundary s' then String c EmptyString :: split s'
      else match split s' with
           | w :: ws => String c w :: ws
           | [] => [String c EmptyString]
           end
  end.

Fixpoint nospace (s : string) : bool :=
  match s with
  | String c s' => negb (isspace c) && nospace s'
  | EmptyString => true
  end.

(** A word as [split] yields them: not empty, no space inside. *)
Definition token (s : string) : Prop := s ≠ EmptyString ∧ nospace s = true.

Definition is_token (s : string) : bool :=
  match s with
  | EmptyString => false
  | _ => nospace s
  end.

(** The last character of a text, if any. *)
Fixpoint last_char (s : string) : option ascii :=
  match s with
  | EmptyString => None
  | String c EmptyString => Some c
  | String _ s' => last_char s'
  end.

End PyStr.


(** ** JSON values as [json.loads] returns them *)

Unset Elimination Schemes.
Inductive json : Type :=
| JNull
| JBool (b : bool)
| JInt (n : Z)
| JStr (s : string)
| JList (l : list json)
| JDict (d : list (string * json)).
Set Elimination Schemes.

(** A Python [dict] with text keys: the items in insertion order. *)
Abbreviation dict := (list (string * json)).

(** Induction over a JSON value reaches the elements of a list and the
    values of a dict. *)
Fixpoint json_ind (P : json → Prop)
    (HNull : P JNull) (HBool : ∀ b, P (JBool b)) (HInt : ∀ n, P (JInt n))
    (HStr : ∀ s, P (JStr s))
    (HList : ∀ l, Forall P l → P (JList l))
    (HDict : ∀ d, Forall (λ kv, P (snd kv)) d → P (JDict d))
    (v : json) {struct v} : P v :=
  let rec := json_ind P HNull HBool HInt HStr HList HDict in
  match v with
  | JNull => HNull
  | JBool b => HBool b
  | JInt n => HInt n
  | JStr s => HStr s
  | JList l =>
      HList l ((fix all (l : list json) : Forall P l :=
                  match l with
                  | [] => List.Forall_nil P
                  | x :: l' => List.Forall_cons P x l' (rec x) (all l')
                  end) l)
  | JDict d =>
      HDict d ((fix all (d : dict) : Forall (λ kv, P (snd kv)) d :=
                  match d with
                  | [] => List.Forall_nil _
                  | kv :: d' => List.Forall_cons _ kv d' (rec (snd kv)) (all d')
                  end) d)
  end.

Module PyDict.

(** [k in d], [d.keys()] *)
Definition keys (d : dict) : list string := map fst d.

(** The value stored under [k], if any. *)
Fixpoint lookup (d : dict) (k : string) : option json :=
  match d with
  | [] => None
  | (k', v) :: d' => if String.eqb k' k then Some v else lookup d' k
  end.

(** [d.get(k, default)]; [d.get(k)] is [get d k JNull]. *)
Definition get (d : dict) (k : string) (default : json) : json :=
  match lookup d k with
  | Some v => v
  | None => default
  end.

(** [d[k] = v]: an existing key keeps its place, a new one goes last. *)
Fixpoint setitem (d : dict) (k : string) (v : json) : dict :=
  match d with
  | [] => [(k, v)]
  | (k', v') :: d' =>
      if String.eqb k' k then (k', v) :: d' else (k', v') :: setitem d' k v
  end.

End PyDict.

(** The value of the field [k] of a JSON object. *)
Definition field (e : json) (k : string) : option json :=
  match e with
  | JDict d => PyDict.lookup d k
  | _ => None
  end.

(** [v == s] and [v != s] for a JSON value [v] and a Python [str] [s]: only
    a string equals a string. *)
Definition py_eq_str (v : json) (s : string) : bool :=
  match v with
  | JStr s' => String.eqb s' s
  | _ => false
  end.

Definition py_ne_str (v : json) (s : string) : bool := negb (py_eq_str v s).

(** What [json.loads] can return and [json.dumps] accepts: no dict holds a
    key twice. *)
Fixpoint wf_json (v : json) : bool :=
  match v with
  | JList l => forallb wf_json l
  | JDict d =>
      bool_decide (NoDup (map fst d))
      && forallb (fun kv => wf_json (snd kv)) d
  | _ => true
  end.

(** ** The Redis server behind [redis-cli] *)

Inductive rvalue : Type :=
| RString (s : string)
| RHash (fields : list (string * string)).

Abbreviation redis := (gmap string rvalue).

Module Redis.

Definition nl : string := String "010"%char EmptyString.

Definition wrongtype : string :=
  "WRONGTYPE Operation against a key holding the wrong kind of value" +:+ nl.

Fixpoint hget (h : list (string * string)) (f : string) : option string :=
  match h with
  | [] => None
  | (f', v) :: h' => if String.eqb f' f then Some v else hget h' f
  end.

Fixpoint hset (h : list (string * string)) (f v : string)
  : list (string * string) :=
  match h with
  | [] => [(f, v)]
  | (f', v') :: h' =>
      if String.eqb f' f then (f', v) :: h' else (f', v') :: hset h' f v
  end.

(** The bulk reply of [redis-cli] when its output is not a terminal: the
    value and a newline, nothing but the newline for nil. *)
Definition bulk (r : option string) : string :=
  match r with
  | Some v => v +:+ nl
  | None => nl
  end.

(** One [redis-cli] invocation with the words [argv]: what it prints and
    the database afterwards. *)
Definition exec (argv : list string) (db : redis) : string * redis :=
  match argv with
  | [c; k] =>
      if String.eqb c "get" then
        match db !! k with
        | Some (RString v) => (bulk (Some v), db)
        | Some (RHash _) => (wrongtype, db)
        | None => (bulk None, db)
        end
      else if String.eqb c "hkeys" then
        match db !! k with
        | Some (RHash h) => (String.concat nl (map fst h) +:+ nl, db)
        | Some (RString _) => (wrongtype, db)
        | None => (nl, db)
        end
      else ("ERR unknown command" +:+ nl, db)
  | [c; k; a] =>
      if String.eqb c "set" then ("OK" +:+ nl, <[k := RString a]> db)
      else if String.eqb c "hget" then
        match db !! k with
        | Some (RHash h) => (bulk (hget h a), db)
        | Some (RString _) => (wrongtype, db)
        | None => (bulk None, db)
        end
      else ("ERR unknown command" +:+ nl, db)
  | [c; k; f; v] =>
      if String.eqb c "hset" then
        match db !! k with
        | Some (RHash h) =>
            (match hget h f with Some _ => "0" | None => "1" end +:+ nl,
             <[k := RHash (hset h f v)]> db)
        | Some (RString _) => (wrongtype, db)
        | None => ("1" +:+ nl, <[k := RHash [(f, v)]]> db)
        end
      else ("ERR unknown command" +:+ nl, db)
  | _ => ("ERR unknown command" +:+ nl, db)
  end.

(** The commands that change the database. *)
Definition is_write (argv : list string) : bool :=
  match argv with
  | c :: _ => String.eqb c "set" || String.eqb c "hset"
  | [] => false
  end.

End Redis.

(** ** The process: its world, its exceptions *)

(** What the script prints, line by line, with the values it interpolates. *)
Inductive line : Type :=
| LBanner
| LBlank
| LNotFound
| LFound (moon_nest_id : string)
| LFoundServices (n : nat)
| LProcessing (name type_ : json)
| LOldNest (nest : json)
| LNewNest (moon_nest_id : string)
| LReassigned
| LParseError
| LReassignedCount (reassigned_count : nat)
| LUpdating
| LAdded (name : json)
| LUpdated (n : nat)
| LDone.

Record world : Type := World {
  db : redis;                       (* the Redis database *)
  writes : list (list string);      (* the writing commands run so far *)
  clock : nat;                      (* how many times [date] has run *)
  stdout : list line                (* what was printed so far *)
}.

Inductive exn : Type :=
| SystemExit (code : Z)
| AttributeError
| TypeError.

Inductive result (A : Type) : Type :=
| Ret (a : A)
| Raise (e : exn).
Arguments Ret {A} a.
Arguments Raise {A} e.

(** A computation of the script: it ends with a value or an exception that
    nothing caught, in a new world. *)
Definition M (A : Type) : Type := world → result A * world.

#[export] Instance M_ret : MRet M := λ A a w, (Ret a, w).
#[export] Instance M_bind : MBind M := λ A B f m w,
  match m w with
  | (Ret a, w') => f a w'
  | (Raise e, w') => (Raise e, w')
  end.

Definition raise {A} (e : exn) : M A := λ w, (Raise e, w).

Definition print (l : line) : M unit := λ w,
  (Ret tt, World (db w) (writes w) (clock w) (stdout w ++ [l])%list).

(** [sys.exit(code)] *)
Definition sys_exit {A} (code : Z) : M A := raise (SystemExit code).

(** The exit status of the interpreter. *)
Definition exit_code {A} (r : result A) : Z :=
  match r with
  | Ret _ => 0
  | Raise (SystemExit code) => code
  | Raise _ => 1
  end.

(** [docker compose exec -T redis redis-cli args], fed [input]: with [-x]
    the last argument is read from the standard input. *)
Definition redis_cli (args : list string) (input : string) : M string := λ w,
  let argv :=
    match args with
    | a :: rest => if String.eqb a "-x" then (rest ++ [input])%list else args
    | [] => args
    end in
  let '(out, db') := Redis.exec argv (db w) in
  (Ret out,
   World db' (if Redis.is_write argv then (writes w ++ [argv])%list else writes w)
         (clock w) (stdout w)).

(** The attribute [v.get]: only a dict has it. *)
Definition get_method (v : json) : M dict :=
  match v with
  | JDict d => mret d
  | _ => raise AttributeError
  end.

(** [v[k] = x] *)
Definition setitem (v : json) (k : string) (x : json) : M json :=
  match v with
  | JDict d => mret (JDict (PyDict.setitem d k x))
  | _ => raise TypeError
  end.

(** ** The script *)

Module Script.
Section Defs.

(** The [json] module of Python and the system clock are outside the
    repository: [json_loads] is [None] where [json.loads] raises
    [JSONDecodeError], and [epoch n] is the number of seconds that the
    [n]-th run of [date +%s] prints. *)
Variable json_loads : string → option json.
Variable json_dumps : json → string.
Variable epoch : nat → Z.

Definition run_redis_command (command : string) : M string :=
  out ← redis_cli (PyStr.split command) EmptyString;
  mret (PyStr.strip out).

(** [int(subprocess.run(['date', '+%s000'], ...).stdout.strip())] *)
Definition date_ms : M Z := λ w,
  (Ret (epoch (clock w) * 1000)%Z,
   World (db w) (writes w) (S (clock w)) (stdout w)).

Definition is_dquote (c : ascii) : bool := Ascii.eqb c "034"%char.

Definition default_monitoring : json :=
  JDict [("regions",
          JList [JStr "eu-central-1"; JStr "eu-west-1"; JStr "us-east-1"]);
         ("strategy", JStr "round-robin");
         ("minRegions", JInt 1);
         ("maxRegions", JInt 3)].

(** The entry of the nest's list built for the record [service_data];
    [now_created] and [now_updated] are the two readings of the clock. *)
Definition service_obj (service_id moon_nest_id : string)
    (service_data : dict) (now_created now_updated : Z) : json :=
  JDict [("id", JStr service_id);
         ("nestId", JStr moon_nest_id);
         ("name", PyDict.get service_data "name" (JStr ""));
         ("type", PyDict.get service_data "type" (JStr ""));
         ("target", PyDict.get service_data "target" (JStr ""));
         ("interval", PyDict.get service_data "interval" (JInt 60));
         ("isActive", PyDict.get service_data "enabled" (JBool true));
         ("createdAt",
          PyDict.get service_data "createdAt" (JInt now_created));
         ("updatedAt", JInt now_updated);
         ("lastCheck", PyDict.get service_data "lastCheck" JNull);
         ("monitoring",
          PyDict.get service_data "monitoring" default_monitoring)].

(** The first loop of [main]: one record. *)
Definition reassign_one (moon_nest_id service_id : string)
    (reassigned_count : nat) : M nat :=
  service_data_str ←
    run_redis_command ("hget scheduler:services " +:+ service_id);
  match json_loads service_data_str with
  | Some service_data =>
      d ← get_method service_data;
      print (LProcessing (PyDict.get d "name" (JStr "Unknown"))
                         (PyDict.get d "type" (JStr "Unknown")));;
      print (LOldNest (PyDict.get d "nestId" (JStr "Unknown")));;
      let old_nest_id := PyDict.get d "nestId" JNull in
      service_data ← setitem service_data "nestId" (JStr moon_nest_id);
      let updated_json := json_dumps service_data in
      redis_cli ["-x"; "hset"; "scheduler:services"; service_id]
                updated_json;;
      print (LNewNest moon_nest_id);;
      print LReassigned;;
      print LBlank;;
      mret (if py_ne_str old_nest_id moon_nest_id
            then S reassigned_count else reassigned_count)
  | None =>
      print LParseError;;
      print LBlank;;
      mret reassigned_count
  end.

Fixpoint reassign_loop (moon_nest_id : string) (service_ids : list string)
    (reassigned_count : nat) : M nat :=
  match service_ids with
  | [] => mret reassigned_count
  | service_id :: rest =>
      reassigned_count ←
        reassign_one moon_nest_id service_id reassigned_count;
      reassign_loop moon_nest_id rest reassigned_count
  end.

(** The second loop of [main]: one record. *)
Definition collect_one (moon_nest_id service_id : string)
    (services_list : list json) : M (list json) :=
  service_data_str ←
    run_redis_command ("hget scheduler:services " +:+ service_id);
  match json_loads service_data_str with
  | Some service_data =>
      d ← get_method service_data;
      if py_eq_str (PyDict.get d "nestId" JNull) moon_nest_id then
        now_created ← date_ms;
        now_updated ← date_ms;
        let obj :=
          service_obj service_id moon_nest_id d now_created now_updated in
        print (LAdded (PyDict.get d "name" (JStr "")));;
        mret (services_list ++ [obj])%list
      else mret services_list
  | None => mret services_list
  end.

Fixpoint collect_loop (moon_nest_id : string) (service_ids : list string)
    (services_list : list json) : M (list json) :=
  match service_ids with
  | [] => mret services_list
  | service_id :: rest =>
      services_list ← collect_one moon_nest_id service_id services_list;
      collect_loop moon_nest_id rest services_list
  end.

Definition nest_email_key : string := "nest:email:moon.pl.kr@gmail.com".

Definition nest_services_key (moon_nest_id : string) : string :=
  "nest:" +:+ moon_nest_id +:+ ":services".

(** [main] returns the count it reports and the list it stores. *)
Definition main : M (nat * list json) :=
  print LBanner;;
  print LBlank;;
  out ← run_redis_command "get nest:email:moon.pl.kr@gmail.com";
  let moon_nest_id := PyStr.strip_chars is_dquote out in
  if String.eqb moon_nest_id EmptyString || String.eqb moon_nest_id "(nil)"
  then
    print LNotFound;;
    sys_exit 1
  else
    print (LFound moon_nest_id);;
    print LBlank;;
    out ← run_redis_command "hkeys scheduler:services";
    let service_ids := PyStr.split out in
    print (LFoundServices (length service_ids));;
    print LBlank;;
    reassigned_count ← reassign_loop moon_nest_id service_ids 0;
    print (LReassignedCount reassigned_count);;
    print LBlank;;
    print LUpdating;;
    services_list ← collect_loop moon_nest_id service_ids [];
    let services_json := json_dumps (JList services_list) in
    redis_cli ["-x"; "set"; nest_services_key moon_nest_id] services_json;;
    print LBlank;;
    print (LUpdated (length services_list));;
    print LBlank;;
    print LDone;;
    mret (reassigned_count, services_list).

End Defs.
End Script.

(** ** What a run does to the store, read off the hash *)

Definition services_key : string := "scheduler:services".

(** The fields of the hash [scheduler:services] with their values; a
    missing key is the empty hash. *)
Definition services (d : redis) : list (string * string) :=
  match d !! services_key with
  | Some (RHash h) => h
  | _ => []
  end.

(** The nest id as [main] finds it: the reply to [get], stripped of spaces
    and of double quotes. *)
Definition lookup_nest (d : redis) : string :=
  PyStr.strip_chars Script.is_dquote
    (PyStr.strip (fst (Redis.exec ["get"; Script.nest_email_key] d))).

(** [main] goes on with the nest id [nest]. *)
Definition resolved (nest : string) : bool :=
  negb (String.eqb nest EmptyString || String.eqb nest "(nil)").

(** The store as Redis keeps it and as the script expects it: the services
    are a hash, no field occurs twice, and a field is one word. *)
Definition store_ok (d : redis) : bool :=
  match d !! services_key with
  | Some (RString _) => false
  | _ => true
  end
  && bool_decide (NoDup (map fst (services d)))
  && forallb PyStr.is_token (map fst (services d)).

(** The hash of services replaced by [h], where there is one. *)
Definition put_services (d : redis) (h : list (string * string)) : redis :=
  match d !! services_key with
  | Some _ => <[services_key := RHash h]> d
  | None => d
  end.

Module View.
Section Defs.

Variable json_loads : string → option json.
Variable json_dumps : json → string.
Variable epoch : nat → Z.

(** The JSON value the script reads out of a stored text: [redis-cli]
    prints the text, [run_redis_command] strips it, [json.loads] decodes. *)
Definition decode (s : string) : option json := json_loads (PyStr.strip s).

(** A stored text is a service record when it does not decode or decodes
    to an object. *)
Definition is_record (s : string) : bool :=
  match decode s with
  | Some (JDict _) | None => true
  | Some _ => false
  end.

Definition records_ok (d : redis) : bool :=
  forallb (λ fs, is_record (snd fs)) (services d).

Definition reassigned (d : dict) (nest : string) : dict :=
  PyDict.setitem d "nestId" (JStr nest).

(** The text the first loop leaves in a field. *)
Definition reassigned_text (nest s : string) : string :=
  match decode s with
  | Some (JDict d) => json_dumps (JDict (reassigned d nest))
  | _ => s
  end.

Definition rewrite_record (nest : string) (fs : string * string)
  : string * string :=
  (fst fs, reassigned_text nest (snd fs)).

(** The write of the first loop for a field, if it makes one. *)
Definition hset_of (nest : string) (fs : string * string)
  : option (list string) :=
  match decode (snd fs) with
  | Some (JDict d) =>
      Some ["hset"; services_key; fst fs; json_dumps (JDict (reassigned d nest))]
  | _ => None
  end.

(** The record decodes and its [nestId] is not yet [nest]. *)
Definition changed (nest : string) (fs : string * string) : bool :=
  match decode (snd fs) with
  | Some (JDict d) => py_ne_str (PyDict.get d "nestId" JNull) nest
  | _ => false
  end.

(** The record decodes and its [nestId] is [nest]. *)
Definition owned (nest : string) (fs : string * string) : bool :=
  match decode (snd fs) with
  | Some (JDict d) => py_eq_str (PyDict.get d "nestId" JNull) nest
  | _ => false
  end.

Definition lines_reassign (nest : string) (fs : string * string)
  : list line :=
  match decode (snd fs) with
  | Some (JDict d) =>
      [LProcessing (PyDict.get d "name" (JStr "Unknown"))
                   (PyDict.get d "type" (JStr "Unknown"));
       LOldNest (PyDict.get d "nestId" (JStr "Unknown"));
       LNewNest nest; LReassigned; LBlank]
  | _ => [LParseError; LBlank]
  end.

(** The entries the second loop builds from the hash [h] when [date] has
    run [t] times before. *)
Fixpoint entries (nest : string) (h : list (string * string)) (t : nat)
  : list json :=
  match h with
  | [] => []
  | fs :: h' =>
      match decode (snd fs) with
      | Some (JDict d) =>
          if py_eq_str (PyDict.get d "nestId" JNull) nest
          then Script.service_obj (fst fs) nest d
                 (epoch t * 1000) (epoch (S t) * 1000)
               :: entries nest h' (S (S t))
          else entries nest h' t
      | _ => entries nest h' t
      end
  end.

Definition lines_collect (nest : string) (fs : string * string)
  : list line :=
  match decode (snd fs) with
  | Some (JDict d) =>
      if py_eq_str (PyDict.get d "nestId" JNull) nest
      then [LAdded (PyDict.get d "name" (JStr ""))]
      else []
  | _ => []
  end.

(** The world a complete run leaves behind, for the nest id [nest]. *)
Definition after_run (nest : string) (w : world) : world :=
  let h := map (rewrite_record nest) (services (db w)) in
  let l := entries nest h (clock w) in
  let set := ["set"; Script.nest_services_key nest; json_dumps (JList l)] in
  World
    (<[Script.nest_services_key nest := RString (json_dumps (JList l))]>
       (put_services (db w) h))
    (writes w ++ omap (hset_of nest) (services (db w)) ++ [set])
    (clock w + 2 * length l)
    (stdout w
     ++ [LBanner; LBlank; LFound nest; LBlank;
         LFoundServices (length (services (db w))); LBlank]
     ++ flat_map (lines_reassign nest) (services (db w))
     ++ [LReassignedCount (length (filter (changed nest) (services (db w))));
         LBlank; LUpdating]
     ++ flat_map (lines_collect nest) h
     ++ [LBlank; LUpdated (length l); LBlank; LDone]).

End Defs.
End View.

(** ** A JSON codec to run the script with

    [dumps] writes a value the way [json.dumps] does with its default
    settings (separators [", "] and [": "], every character outside the
    printable ASCII range escaped); [loads] reads JSON text whose numbers
    are integers and whose characters stay below 256, and is [None] on
    anything else. *)

Module RefJson.

Definition dq : ascii := "034"%char.
Definition backslash : ascii := "092"%char.

Definition hex_digit (n : nat) : ascii :=
  if (n <? 10)%nat then ascii_of_nat (48 + n) else ascii_of_nat (87 + n).

Definition escape_char (c : ascii) : string :=
  let n := nat_of_ascii c in
  if Ascii.eqb c dq then String backslash (String dq EmptyString)
  else if Ascii.eqb c backslash then String backslash (String backslash EmptyString)
  else if (n =? 10)%nat then String backslash "n"
  else if (n =? 13)%nat then String backslash "r"
  else if (n =? 9)%nat then String backslash "t"
  else if (n =? 8)%nat then String backslash "b"
  else if (n =? 12)%nat then String backslash "f"
  else if ((32 <=? n) && (n <=? 126))%nat then String c EmptyString
  else String backslash
         (String "u" (String "0" (String "0"
            (String (hex_digit (n / 16))
               (String (hex_digit (n mod 16)) EmptyString))))).

Fixpoint escape (s : string) : string :=
  match s with
  | EmptyString => EmptyString
  | String c s' => escape_char c +:+ escape s'
  end.

Definition dump_string (s : string) : string :=
  String dq (escape s +:+ String dq EmptyString).

Definition dump_int (n : Z) : string := NilEmpty.string_of_int (Z.to_int n).

Fixpoint dumps (v : json) : string :=
  match v with
  | JNull => "null"
  | JBool true => "true"
  | JBool false => "false"
  | JInt n => dump_int n
  | JStr s => dump_string s
  | JList l => "[" +:+ String.concat ", " (map dumps l) +:+ "]"
  | JDict d =>
      "{" +:+ String.concat ", "
                (map (λ kv, dump_string (fst kv) +:+ ": " +:+ dumps (snd kv)) d)
          +:+ "}"
  end.

Definition is_ws (c : ascii) : bool :=
  let n := nat_of_ascii c in
  ((n =? 32) || (n =? 9) || (n =? 10) || (n =? 13))%nat.

Definition skip_ws (s : string) : string := PyStr.lstrip is_ws s.

Definition is_digit (c : ascii) : bool :=
  let n := nat_of_ascii c in ((48 <=? n) && (n <=? 57))%nat.

Definition hex_value (c : ascii) : option nat :=
  let n := nat_of_ascii c in
  if ((48 <=? n) && (n <=? 57))%nat then Some (n - 48)
  else if ((97 <=? n) && (n <=? 102))%nat then Some (n - 87)
  else if ((65 <=? n) && (n <=? 70))%nat then Some (n - 55)
  else None.

(** The rest of [s] after the literal [lit]. *)
Fixpoint expect (lit s : string) : option string :=
  match lit with
  | EmptyString => Some s
  | String c lit' =>
      match s with
      | String c' s' => if Ascii.eqb c c' then expect lit' s' else None
      | EmptyString => None
      end
  end.

Definition cons_char (c : ascii) (r : option (string * string))
  : option (string * string) :=
  match r with
  | Some (x, rest) => Some (String c x, rest)
  | None => None
  end.

(** A string, read from behind its opening quote. *)
Fixpoint parse_string (s : string) : option (string * string) :=
  match s with
  | EmptyString => None
  | String c s1 =>
      if Ascii.eqb c dq then Some (EmptyString, s1)
      else if Ascii.eqb c backslash then
        match s1 with
        | EmptyString => None
        | String e s2 =>
            if Ascii.eqb e dq then cons_char dq (parse_string s2)
            else if Ascii.eqb e backslash then cons_char backslash (parse_string s2)
            else if Ascii.eqb e "/" then cons_char "/" (parse_string s2)
            else if Ascii.eqb e "b" then cons_char "008" (parse_string s2)
            else if Ascii.eqb e "f" then cons_char "012" (parse_string s2)
            else if Ascii.eqb e "n" then cons_char "010" (parse_string s2)
            else if Ascii.eqb e "r" then cons_char "013" (parse_string s2)
            else if Ascii.eqb e "t" then cons_char "009" (parse_string s2)
            else if Ascii.eqb e "u" then
              match s2 with
              | String h1 (String h2 (String h3 (String h4 s3))) =>
                  match hex_value h1, hex_value h2, hex_value h3, hex_value h4 with
                  | Some a, Some b, Some c', Some d =>
                      let n := ((a * 16 + b) * 16 + c') * 16 + d in
                      if (n <? 256)%nat
                      then cons_char (ascii_of_nat n) (parse_string s3)
                      else None
                  | _, _, _, _ => None
                  end
              | _ => None
              end
            else None
        end
      else if (nat_of_ascii c <? 32)%nat then None
      else cons_char c (parse_string s1)
  end.

Fixpoint span_digits (s : string) : string * string :=
  match s with
  | String c s' =>
      if is_digit c
      then let (ds, r) := span_digits s' in (String c ds, r)
      else (EmptyString, s)
  | EmptyString => (EmptyString, EmptyString)
  end.

(** The text after a number neither goes on with it nor makes it a
    float. *)
Definition delimited (rest : string) : bool :=
  match rest with
  | String c _ =>
      negb (is_digit c || Ascii.eqb c "." || Ascii.eqb c "e" || Ascii.eqb c "E")
  | EmptyString => true
  end.

(** The digits of a number, read from behind its sign: no digit may
    follow a leading zero. *)
Definition parse_digits (neg : bool) (s : string) : option (Z * string) :=
  let (ds, rest) := span_digits s in
  match ds with
  | EmptyString => None
  | String c ds' =>
      if Ascii.eqb c "0" && negb (String.eqb ds' EmptyString) then None
      else if negb (delimited rest) then None
      else match NilEmpty.uint_of_string ds with
           | Some u => Some (Z.of_int (if neg then Neg u else Pos u), rest)
           | None => None
           end
  end.

Definition parse_int (s : string) : option (Z * string) :=
  match s with
  | String c s' =>
      if Ascii.eqb c "-" then parse_digits true s' else parse_digits false s
  | EmptyString => None
  end.

(** [dict(pairs)]: a key that comes again keeps its place and takes the
    later value. *)
Definition dict_of_pairs (pairs : list (string * json)) : dict :=
  fold_left (λ d kv, PyDict.setitem d (fst kv) (snd kv)) pairs [].

Fixpoint parse_value (fuel : nat) (s : string) : option (json * string) :=
  match fuel with
  | 0 => None
  | S fuel =>
      match s with
      | EmptyString => None
      | String c s1 =>
          if Ascii.eqb c "n" then
            match expect "ull" s1 with
            | Some r => Some (JNull, r)
            | None => None
            end
          else if Ascii.eqb c "t" then
            match expect "rue" s1 with
            | Some r => Some (JBool true, r)
            | None => None
            end
          else if Ascii.eqb c "f" then
            match expect "alse" s1 with
            | Some r => Some (JBool false, r)
            | None => None
            end
          else if Ascii.eqb c dq then
            match parse_string s1 with
            | Some (x, r) => Some (JStr x, r)
            | None => None
            end
          else if Ascii.eqb c "[" then
            match skip_ws s1 with
            | EmptyString => None
            | String c1 r1 =>
                if Ascii.eqb c1 "]" then Some (JList [], r1)
                else match parse_elements fuel (String c1 r1) with
                     | Some (l, r) => Some (JList l, r)
                     | None => None
                     end
            end
          else if Ascii.eqb c "{" then
            match skip_ws s1 with
            | EmptyString => None
            | String c1 r1 =>
                if Ascii.eqb c1 "}" then Some (JDict [], r1)
                else match parse_members fuel (String c1 r1) with
                     | Some (pairs, r) => Some (JDict (dict_of_pairs pairs), r)
                     | None => None
                     end
            end
          else
            match parse_int s with
            | Some (n, r) => Some (JInt n, r)
            | None => None
            end
      end
  end
with parse_elements (fuel : nat) (s : string) : option (list json * string) :=
  match fuel with
  | 0 => None
  | S fuel =>
      match parse_value fuel s with
      | None => None
      | Some (v, r) =>
          match skip_ws r with
          | EmptyString => None
          | String c r1 =>
              if Ascii.eqb c "," then
                match parse_elements fuel (skip_ws r1) with
                | Some (l, r2) => Some (v :: l, r2)
                | None => None
                end
              else if Ascii.eqb c "]" then Some ([v], r1)
              else None
          end
      end
  end
with parse_members (fuel : nat) (s : string)
  : option (list (string * json) * string) :=
  match fuel with
  | 0 => None
  | S fuel =>
      match s with
      | EmptyString => None
      | String c s1 =>
          if negb (Ascii.eqb c dq) then None
          else
            match parse_string s1 with
            | None => None
            | Some (k, r) =>
                match skip_ws r with
                | EmptyString => None
                | String c2 r2 =>
                    if negb (Ascii.eqb c2 ":") then None
                    else
                      match parse_value fuel (skip_ws r2) with
                      | None => None
                      | Some (v, r3) =>
                          match skip_ws r3 with
                          | EmptyString => None
                          | String c4 r4 =>
                              if Ascii.eqb c4 "," then
                                match parse_members fuel (skip_ws r4) with
                                | Some (l, r5) => Some ((k, v) :: l, r5)
                                | None => None
                                end
                              else if Ascii.eqb c4 "}" then Some ([(k, v)], r4)
                              else None
                          end
                      end
                end
            end
      end
  end.

(** [json.loads]: one value with nothing but blanks around it. *)
Definition loads (s : string) : option json :=
  match parse_value (S (String.length s)) (skip_ws s) with
  | Some (v, r) =>
      match skip_ws r with
      | EmptyString => Some v
      | _ => None
      end
  | None => None
  end.

(** The rest of the text does not start with a digit. *)
Definition no_digit_ahead (rest : string) : Prop :=
  match rest with
  | String c _ => is_digit c = false
  | EmptyString => True
  end.

(** A character a dumped value can start with: no blank, no closing
    bracket. *)
Definition starter (c : ascii) : bool :=
  negb (PyStr.isspace c) && negb (is_ws c)
  && negb (Ascii.eqb c "]") && negb (Ascii.eqb c "}").

(** The text between the brackets of a dumped list. *)
Definition items (l : list json) : string := String.concat ", " (map dumps l).

Definition pair_text (kv : string * json) : string :=
  dump_string (fst kv) +:+ ": " +:+ dumps (snd kv).

(** The text between the braces of a dumped dict. *)
Definition mitems (d : dict) : string := String.concat ", " (map pair_text d).

(** What the round trip of a value [v] says. *)
Definition round_trip (v : json) : Prop :=
  wf_json v = true → ∀ fuel rest,
    String.length (dumps v) < fuel → delimited rest = true →
    parse_value fuel (dumps v +:+ rest) = Some (v, rest).

End RefJson.

(** ** Stores to run the script on *)

Module Scenario.

(** A text between double quotes, as the nest id is stored. *)
Definition quoted (s : string) : string :=
  String RefJson.dq (s +:+ String RefJson.dq EmptyString).

Definition svc_a : json :=
  JDict [("name", JStr "api"); ("type", JStr "http");
         ("target", JStr "https://a.example"); ("nestId", JStr "acct-old");
         ("interval", JInt 30); ("createdAt", JInt 1690000000000)].

(** A record of the nest already, without name, type, interval or
    monitoring. *)
Definition svc_b : json :=
  JDict [("nestId", JStr "acct-target"); ("enabled", JBool false)].

Definition nest_lookup : string * rvalue :=
  ("nest:email:moon.pl.kr@gmail.com", RString (quoted "acct-target")).

(** Two records, [svc-a] of [acct-old] and [svc-b] of [acct-target]. *)
Definition two_services : redis :=
  list_to_map
    [nest_lookup;
     ("scheduler:services",
      RHash [("svc-a", RefJson.dumps svc_a); ("svc-b", RefJson.dumps svc_b)])].

(** The same with a text in between that is no JSON. *)
Definition with_malformed : redis :=
  list_to_map
    [nest_lookup;
     ("scheduler:services",
      RHash [("svc-a", RefJson.dumps svc_a); ("svc-c", "{oops");
             ("svc-b", RefJson.dumps svc_b)])].

(** The same with a text in between that is JSON but no object. *)
Definition with_list : redis :=
  list_to_map
    [nest_lookup;
     ("scheduler:services",
      RHash [("svc-a", RefJson.dumps svc_a); ("svc-l", "[1, 2]");
             ("svc-b", RefJson.dumps svc_b)])].

(** The same with a field whose name is two words. *)
Definition with_spaced_field : redis :=
  list_to_map
    [nest_lookup;
     ("scheduler:services",
      RHash [("svc a", RefJson.dumps svc_a); ("svc-b", RefJson.dumps svc_b)])].

(** Two fields, the first with a name of two words of which the first is
    the name of the second; both records are of the nest already. *)
Definition with_split_field : redis :=
  list_to_map
    [nest_lookup;
     ("scheduler:services",
      RHash [("svc-b x", RefJson.dumps svc_b); ("svc-b", RefJson.dumps svc_b)])].

(** A text that is JSON but no object, before a record of [acct-old]. *)
Definition list_first : redis :=
  list_to_map
    [nest_lookup;
     ("scheduler:services",
      RHash [("svc-l", "[1, 2]"); ("svc-a", RefJson.dumps svc_a)])].

(** A record of the nest whose [monitoring] names a strategy and nothing
    else. *)
Definition svc_m : json :=
  JDict [("name", JStr "db"); ("nestId", JStr "acct-target");
         ("monitoring", JDict [("strategy", JStr "failover")])].

Definition with_partial_monitoring : redis :=
  list_to_map
    [nest_lookup;
     ("scheduler:services", RHash [("svc-m", RefJson.dumps svc_m)])].

(** A store that knows no nest for the address. *)
Definition no_nest : redis :=
  list_to_map
    [("scheduler:services", RHash [("svc-a", RefJson.dumps svc_a)])].

(** The world at the start of a run. *)
Definition start (d : redis) : world := World d [] 0 [].

(** A clock that is one second further each time it is read. *)
Definition ticking (n : nat) : Z := 1700000000 + Z.of_nat n.

(** The script with the codec [RefJson] and the clock [ticking]. *)
Definition main : M (nat * list json) :=
  Script.main RefJson.loads RefJson.dumps ticking.

End Scenario.

(** * Facts *)

(** ** Words and stripping *)

Section PyStrFacts.
Import PyStr.

Lemma is_token_spec s : is_token s = true ↔ token s.
Proof.
  unfold token; destruct s; simpl; split.
  - discriminate.
  - intros [H _]; congruence.
  - intros H; split; [discriminate | exact H].
  - intros [_ H]; exact H.
Qed.

Lemma split_space c s : isspace c = true → split (String c s) = split s.
Proof. simpl; intros ->; reflexivity. Qed.

Lemma split_nonspace c s :
  isspace c = false →
  split (String c s) =
    if at_boundary s then String c EmptyString :: split s
    else match split s with
         | w :: ws => String c w :: ws
         | [] => [String c EmptyString]
         end.
Proof. simpl; intros ->; reflexivity. Qed.

Lemma split_word_then_space t c s :
  token t → isspace c = true → split (t +:+ String c s) = t :: split s.
Proof.
  intros [Hne Hns] Hc; revert Hne Hns.
  induction t as [|a t IH]; [congruence|]; intros _ Hns.
  simpl in Hns; apply andb_true_iff in Hns as [Ha Ht].
  apply negb_true_iff in Ha.
  change (String a t +:+ String c s) with (String a (t +:+ String c s)).
  cbn [split]; rewrite Ha.
  destruct t as [|b t].
  - change (EmptyString +:+ String c s) with (String c s).
    cbn [at_boundary]; rewrite Hc.
    rewrite split_space by assumption; reflexivity.
  - assert (Hb : isspace b = false).
    { simpl in Ht; apply andb_true_iff in Ht as [Hb _].
      apply negb_true_iff in Hb; exact Hb. }
    change (String b t +:+ String c s) with (String b (t +:+ String c s)).
    cbn [at_boundary]; rewrite Hb.
    change (String b (t +:+ String c s)) with (String b t +:+ String c s).
    rewrite IH by (congruence || assumption); reflexivity.
Qed.

Lemma split_word t : token t → split t = [t].
Proof.
  intros [Hne Hns]; revert Hne Hns.
  induction t as [|a t IH]; [congruence|]; intros _ Hns.
  simpl in Hns; apply andb_true_iff in Hns as [Ha Ht].
  apply negb_true_iff in Ha.
  cbn [split]; rewrite Ha.
  destruct t as [|b t]; [reflexivity|].
  assert (Hb : isspace b = false).
  { simpl in Ht; apply andb_true_iff in Ht as [Hb _].
    apply negb_true_iff in Hb; exact Hb. }
  cbn [at_boundary]; rewrite Hb.
  rewrite IH by (congruence || assumption); reflexivity.
Qed.

(** Every word [split] returns is a token: the service ids of the script
    never contain a space. *)
Lemma split_tokens s : Forall token (split s).
Proof.
  induction s as [|c s IH]; [constructor|].
  cbn [split]; destruct (isspace c) eqn:Hc; [exact IH|].
  assert (Hone : token (String c EmptyString)).
  { split; [discriminate | simpl; rewrite Hc; reflexivity]. }
  destruct (at_boundary s); [constructor; assumption|].
  destruct (split s) as [|w ws]; [repeat constructor; apply Hone|].
  apply Forall_cons in IH as [[_ Hw] Hws].
  constructor; [|exact Hws].
  split; [discriminate | simpl; rewrite Hc, Hw; reflexivity].
Qed.

Lemma split_lstrip s : split (lstrip isspace s) = split s.
Proof.
  induction s as [|c s IH]; [reflexivity|].
  cbn [lstrip]; destruct (isspace c) eqn:Hc; [|reflexivity].
  rewrite IH, split_space by assumption; reflexivity.
Qed.

Lemma rstrip_empty_split s : rstrip isspace s = EmptyString → split s = [].
Proof.
  induction s as [|c s IH]; [reflexivity|].
  cbn [rstrip]; destruct (rstrip isspace s) eqn:Hr; [|discriminate].
  destruct (isspace c) eqn:Hc; [|discriminate].
  intros _; rewrite split_space by assumption; auto.
Qed.

Lemma rstrip_boundary s :
  at_boundary (rstrip isspace s) = true → at_boundary s = true.
Proof.
  destruct s as [|c s]; [reflexivity|].
  cbn [rstrip]; destruct (rstrip isspace s); [|exact id].
  destruct (isspace c) eqn:Hc; simpl; congruence.
Qed.

Lemma boundary_rstrip s :
  at_boundary s = true → rstrip isspace s ≠ EmptyString →
  at_boundary (rstrip isspace s) = true.
Proof.
  destruct s as [|c s]; [reflexivity|].
  cbn [rstrip at_boundary]; intros Hc.
  destruct (rstrip isspace s); [rewrite Hc; congruence|].
  intros _; exact Hc.
Qed.

Lemma split_rstrip s : split (rstrip isspace s) = split s.
Proof.
  induction s as [|c s IH]; [reflexivity|].
  cbn [rstrip].
  destruct (rstrip isspace s) as [|b r] eqn:Hr.
  - apply rstrip_empty_split in Hr as Hs.
    destruct (isspace c) eqn:Hc.
    + rewrite split_space by assumption; symmetry; exact Hs.
    + cbn [split]; rewrite Hc, Hs; simpl.
      destruct (at_boundary s); reflexivity.
  - destruct (isspace c) eqn:Hc.
    { rewrite (split_space c (String b r)), (split_space c s) by assumption.
      exact IH. }
    rewrite (split_nonspace c (String b r)), (split_nonspace c s)
      by assumption.
    rewrite IH.
    destruct (at_boundary s) eqn:Hs.
    + rewrite <- Hr, boundary_rstrip; [reflexivity | assumption |].
      rewrite Hr; discriminate.
    + destruct (at_boundary (String b r)) eqn:Hb; [|reflexivity].
      rewrite <- Hr in Hb; apply rstrip_boundary in Hb; congruence.
Qed.

Lemma split_strip s : split (strip s) = split s.
Proof. unfold strip, strip_chars; rewrite split_rstrip; apply split_lstrip. Qed.

(** [rstrip] and [lstrip] leave alone a text that neither starts nor ends
    with a stripped character. *)
Lemma rstrip_last p s c :
  last_char s = Some c → p c = false → rstrip p s = s.
Proof.
  induction s as [|a s IH]; [discriminate|].
  cbn [last_char rstrip]; destruct s as [|b s].
  - intros [= ->] ->; reflexivity.
  - intros Hl Hc; rewrite (IH Hl Hc); reflexivity.
Qed.

Lemma last_char_app s c : last_char (s +:+ String c EmptyString) = Some c.
Proof.
  induction s as [|a s IH]; [reflexivity|].
  change (String a s +:+ String c "") with (String a (s +:+ String c "")).
  cbn [last_char]; destruct (s +:+ String c "") eqn:E; [|exact IH].
  destruct s; discriminate.
Qed.

Lemma append_assoc (s t u : string) : (s +:+ t) +:+ u = s +:+ (t +:+ u).
Proof.
induction s as [|a s IH]; [reflexivity|].
change (String a ((s +:+ t) +:+ u) = String a (s +:+ (t +:+ u))).
rewrite IH; reflexivity.
Qed.

Lemma append_empty_r (s : string) : s +:+ EmptyString = s.
Proof.
induction s as [|a s IH]; [reflexivity|].
change (String a (s +:+ EmptyString) = String a s); rewrite IH; reflexivity.
Qed.

Lemma rstrip_append_stripped p s c :
  p c = true → rstrip p (s +:+ String c EmptyString) = rstrip p s.
Proof.
intros Hc; induction s as [|a s IH].
- change (rstrip p (String c EmptyString) = EmptyString).
  cbn [rstrip]; rewrite Hc; reflexivity.
- change (rstrip p (String a (s +:+ String c EmptyString))
          = rstrip p (String a s)).
  cbn [rstrip]; rewrite IH; reflexivity.
Qed.

Lemma lstrip_append p s t :
  lstrip p (s +:+ t) =
    match lstrip p s with
    | EmptyString => lstrip p t
    | r => r +:+ t
    end.
Proof.
induction s as [|a s IH]; [reflexivity|].
change (String a s +:+ t) with (String a (s +:+ t)).
cbn [lstrip]; destruct (p a); [exact IH | reflexivity].
Qed.

(** The newline that [redis-cli] prints after a value goes with [strip]. *)
Lemma strip_newline s : strip (s +:+ Redis.nl) = strip s.
Proof.
unfold strip, strip_chars; rewrite lstrip_append.
destruct (lstrip isspace s) as [|a r] eqn:E; [reflexivity|].
apply rstrip_append_stripped; reflexivity.
Qed.

Lemma strip_no_reply : strip (Redis.bulk None) = EmptyString.
Proof. reflexivity. Qed.

Lemma split_hget_command id :
  token id →
  split ("hget scheduler:services " +:+ id)
  = ["hget"; "scheduler:services"; id].
Proof.
intros Hid.
change ("hget scheduler:services " +:+ id)
  with ("hget" +:+ String " " ("scheduler:services" +:+ String " " id)).
rewrite split_word_then_space; [|apply is_token_spec; reflexivity|reflexivity].
rewrite split_word_then_space; [|apply is_token_spec; reflexivity|reflexivity].
rewrite split_word by assumption; reflexivity.
Qed.

(** The reply to [hkeys] splits into the fields again when no field has a
    space in it. *)
Lemma split_hkeys_reply ks :
  Forall token ks → split (strip (String.concat Redis.nl ks +:+ Redis.nl)) = ks.
Proof.
intros Hks; rewrite split_strip.
induction Hks as [|k ks Hk Hks IH]; [reflexivity|].
destruct ks as [|k' ks].
- cbn [String.concat].
  unfold Redis.nl; rewrite split_word_then_space; [reflexivity|exact Hk|reflexivity].
- change (String.concat Redis.nl (k :: k' :: ks))
    with (k +:+ Redis.nl +:+ String.concat Redis.nl (k' :: ks)).
  rewrite !append_assoc.
  unfold Redis.nl at 1.
  change (String "010" EmptyString +:+ ?x) with (String "010" x).
  rewrite split_word_then_space; [|exact Hk|reflexivity].
  rewrite IH; reflexivity.
Qed.

Lemma last_char_append s t :
  t ≠ EmptyString → last_char (s +:+ t) = last_char t.
Proof.
  intros Ht; induction s as [|a s IH]; [reflexivity|].
  change (String a s +:+ t) with (String a (s +:+ t)).
  cbn [last_char]; destruct (s +:+ t) eqn:E; [|exact IH].
  destruct s; [change (t = EmptyString) in E; congruence | discriminate].
Qed.

End PyStrFacts.

(** ** Hashes and dicts *)

Section HashFacts.

Lemma hget_app_fresh h1 h2 f s :
  f ∉ map fst h1 → Redis.hget (h1 ++ (f, s) :: h2) f = Some s.
Proof.
induction h1 as [|[f' s'] h1 IH]; intros Hf; cbn in Hf |- *.
- rewrite String.eqb_refl; reflexivity.
- apply not_elem_of_cons in Hf as [Hne Hf].
  destruct (String.eqb_spec f' f) as [->|_]; [congruence | auto].
Qed.

Lemma hset_app_fresh h1 h2 f s x :
  f ∉ map fst h1 →
  Redis.hset (h1 ++ (f, s) :: h2) f x = h1 ++ (f, x) :: h2.
Proof.
induction h1 as [|[f' s'] h1 IH]; intros Hf; cbn in Hf |- *.
- rewrite String.eqb_refl; reflexivity.
- apply not_elem_of_cons in Hf as [Hne Hf].
  destruct (String.eqb_spec f' f) as [->|_]; [congruence|].
  rewrite IH by assumption; reflexivity.
Qed.

Lemma hget_elem_of h f s :
  NoDup (map fst h) → (f, s) ∈ h → Redis.hget h f = Some s.
Proof.
intros Hnd Hin; apply list_elem_of_split in Hin as (h1 & h2 & ->).
apply hget_app_fresh.
rewrite map_app in Hnd; apply NoDup_app in Hnd as (_ & Hd & _).
intros Hf; apply (Hd f Hf); cbn; left.
Qed.

Lemma hget_map_value (g : string → string) h f :
  Redis.hget (map (λ fs, (fst fs, g (snd fs))) h) f = g <$> Redis.hget h f.
Proof.
induction h as [|[f' s'] h IH]; [reflexivity|]; cbn.
destruct (String.eqb f' f); [reflexivity | exact IH].
Qed.

Lemma lookup_setitem_eq d k v : PyDict.lookup (PyDict.setitem d k v) k = Some v.
Proof.
induction d as [|[k' v'] d IH]; cbn.
- rewrite String.eqb_refl; reflexivity.
- destruct (String.eqb k' k) eqn:E; cbn; rewrite E; [reflexivity | exact IH].
Qed.

Lemma lookup_setitem_ne d k k' v :
  k' ≠ k → PyDict.lookup (PyDict.setitem d k v) k' = PyDict.lookup d k'.
Proof.
intros Hne; induction d as [|[k0 v0] d IH]; cbn.
- destruct (String.eqb_spec k k'); [congruence | reflexivity].
- destruct (String.eqb_spec k0 k) as [->|_]; cbn.
  + destruct (String.eqb_spec k k'); [congruence | reflexivity].
  + rewrite IH; reflexivity.
Qed.

Lemma lookup_None_keys d k : PyDict.lookup d k = None ↔ k ∉ PyDict.keys d.
Proof.
induction d as [|[k0 v0] d IH]; cbn.
- split; [intros _; apply not_elem_of_nil | reflexivity].
- rewrite not_elem_of_cons.
  destruct (String.eqb_spec k0 k) as [->|Hne]; split.
  + discriminate.
  + intros [H _]; congruence.
  + intros H; split; [congruence | apply IH, H].
  + intros [_ H]; apply IH, H.
Qed.

(** [d[k] = v] keeps the keys and their order; a new key goes last. *)
Lemma keys_setitem d k v :
  PyDict.keys (PyDict.setitem d k v)
  = if bool_decide (k ∈ PyDict.keys d) then PyDict.keys d
    else PyDict.keys d ++ [k].
Proof.
induction d as [|[k0 v0] d IH]; [reflexivity|]; cbn.
destruct (String.eqb_spec k0 k) as [->|Hne]; cbn.
- rewrite bool_decide_eq_true_2 by left; reflexivity.
- unfold PyDict.keys in IH; rewrite IH.
  destruct (decide (k ∈ map fst d)) as [Hin|Hin].
  + rewrite !bool_decide_eq_true_2; [reflexivity | right; exact Hin | exact Hin].
  + rewrite !bool_decide_eq_false_2; [reflexivity | | exact Hin].
    rewrite not_elem_of_cons; split; [congruence | exact Hin].
Qed.

Lemma setitem_twice d k v : PyDict.setitem (PyDict.setitem d k v) k v = PyDict.setitem d k v.
Proof.
induction d as [|[k0 v0] d IH]; cbn.
- rewrite String.eqb_refl; reflexivity.
- destruct (String.eqb k0 k) eqn:E; cbn; rewrite E; [reflexivity|].
  rewrite IH; reflexivity.
Qed.

Lemma wf_setitem d k v :
  wf_json (JDict d) = true → wf_json v = true →
  wf_json (JDict (PyDict.setitem d k v)) = true.
Proof.
cbn; rewrite !andb_true_iff, !bool_decide_eq_true.
intros [Hnd Hall] Hv; split.
- change (map fst (PyDict.setitem d k v)) with (PyDict.keys (PyDict.setitem d k v)).
  rewrite keys_setitem; case_bool_decide as Hin; [exact Hnd|].
  apply NoDup_app; repeat split; [exact Hnd | | apply NoDup_singleton].
  intros x Hx Hk; apply list_elem_of_singleton in Hk as ->; exact (Hin Hx).
- clear Hnd; induction d as [|[k0 v0] d IH]; cbn in *.
  + rewrite Hv; reflexivity.
  + apply andb_true_iff in Hall as [H0 Hall].
    destruct (String.eqb k0 k); cbn; rewrite ?H0, ?Hv, ?Hall; auto.
Qed.

End HashFacts.

(** ** The two loops *)

Section LoopFacts.

Variable json_loads : string → option json.
Variable json_dumps : json → string.
Variable epoch : nat → Z.

Local Abbreviation decode := (View.decode json_loads).
Local Abbreviation is_record := (View.is_record json_loads).
Local Abbreviation rewrite_record := (View.rewrite_record json_loads json_dumps).
Local Abbreviation reassigned_text := (View.reassigned_text json_loads json_dumps).
Local Abbreviation hset_of := (View.hset_of json_loads json_dumps).
Local Abbreviation changed := (View.changed json_loads).
Local Abbreviation owned := (View.owned json_loads).
Local Abbreviation lines_reassign := (View.lines_reassign json_loads).
Local Abbreviation lines_collect := (View.lines_collect json_loads).
Local Abbreviation entries := (View.entries json_loads epoch).
Local Abbreviation reassign_one := (Script.reassign_one json_loads json_dumps).
Local Abbreviation reassign_loop := (Script.reassign_loop json_loads json_dumps).
Local Abbreviation collect_one := (Script.collect_one json_loads epoch).
Local Abbreviation collect_loop := (Script.collect_loop json_loads epoch).

Lemma world_eta w : World (db w) (writes w) (clock w) (stdout w) = w.
Proof. destruct w; reflexivity. Qed.

(** Reading a field prints its value, which [run_redis_command] strips. *)
Lemma run_hget w h id :
  PyStr.token id → db w !! services_key = Some (RHash h) →
  Script.run_redis_command ("hget scheduler:services " +:+ id) w
  = (Ret (from_option PyStr.strip EmptyString (Redis.hget h id)), w).
Proof.
intros Hid Hh.
unfold Script.run_redis_command, mbind, M_bind, redis_cli.
rewrite split_hget_command by assumption.
cbn -[PyStr.strip]; fold services_key; rewrite Hh.
rewrite world_eta; cbn -[PyStr.strip].
destruct (Redis.hget h id) as [v|]; cbn -[PyStr.strip]; [|reflexivity].
rewrite strip_newline; reflexivity.
Qed.

Lemma reassign_loop_app nest ids1 ids2 count w :
  reassign_loop nest (ids1 ++ ids2) count w
  = match reassign_loop nest ids1 count w with
    | (Ret count', w') => reassign_loop nest ids2 count' w'
    | (Raise e, w') => (Raise e, w')
    end.
Proof.
revert count w; induction ids1 as [|id ids1 IH]; intros count w; [reflexivity|].
cbn [app Script.reassign_loop]; unfold mbind, M_bind.
destruct (reassign_one nest id count w) as [[count'|e] w']; [apply IH | reflexivity].
Qed.

(** One turn of the first loop on the field [f] with the text [s]. *)
Lemma reassign_one_spec nest h1 f s h2 count w :
  db w !! services_key = Some (RHash (h1 ++ (f, s) :: h2)) →
  f ∉ map fst h1 → PyStr.token f →
  reassign_one nest f count w
  = if is_record s then
      (Ret (count + length (filter (changed nest) [(f, s)])),
       World (<[services_key := RHash (h1 ++ rewrite_record nest (f, s) :: h2)]>
                (db w))
             (writes w ++ omap (hset_of nest) [(f, s)])
             (clock w)
             (stdout w ++ lines_reassign nest (f, s)))
    else (Raise AttributeError, w).
Proof.
intros Hh Hf Htok.
unfold Script.reassign_one, mbind at 1, M_bind at 1.
rewrite (run_hget w _ f Htok Hh), hget_app_fresh by assumption.
cbn [from_option].
unfold View.is_record, View.rewrite_record, View.reassigned_text,
  View.hset_of, View.changed, View.lines_reassign.
cbn [filter list_filter omap list_omap fst snd].
change (json_loads (PyStr.strip s)) with (decode s).
destruct (decode s) as [[| | | | |d]|] eqn:Hd; try reflexivity.
- cbn [omap list_omap length app].
  unfold get_method, setitem, mbind, M_bind, mret, M_ret, print, redis_cli.
  cbn [String.eqb Ascii.eqb Bool.eqb app db writes clock stdout Redis.exec
       Redis.is_write orb].
  fold services_key; rewrite Hh, hset_app_fresh by assumption.
  cbn [db writes clock stdout app].
  f_equal; [|f_equal].
  + destruct (py_ne_str (PyDict.get d "nestId" JNull) nest); simpl;
      f_equal; lia.
  + rewrite <- !app_assoc; reflexivity.
- cbn [omap list_omap length app].
  unfold mbind, M_bind, mret, M_ret, print.
  cbn [db writes clock stdout app length].
  rewrite insert_id by assumption.
  rewrite Nat.add_0_r, app_nil_r, <- app_assoc; reflexivity.
Qed.

Lemma NoDup_fresh_head {A B} (h1 : list (A * B)) x h2 :
  NoDup (map fst (h1 ++ x :: h2)) → fst x ∉ map fst h1.
Proof.
rewrite map_app; intros Hnd; apply NoDup_app in Hnd as (_ & Hd & _).
intros Hf; apply (Hd _ Hf); left.
Qed.

(** The first loop over the fields [h2] of a hash [h1 ++ h2 ++ h3], when
    every text of [h2] is a record: each is rewritten in place. *)
Lemma reassign_loop_spec nest h2 h3 : ∀ h1 count w,
  db w !! services_key = Some (RHash (h1 ++ h2 ++ h3)) →
  NoDup (map fst (h1 ++ h2 ++ h3)) →
  Forall PyStr.token (map fst h2) →
  forallb (λ fs, is_record (snd fs)) h2 = true →
  reassign_loop nest (map fst h2) count w
  = (Ret (count + length (filter (changed nest) h2)),
     World (<[services_key :=
                RHash (h1 ++ map (rewrite_record nest) h2 ++ h3)]> (db w))
           (writes w ++ omap (hset_of nest) h2)
           (clock w)
           (stdout w ++ flat_map (lines_reassign nest) h2)).
Proof.
induction h2 as [|[f s] h2 IH]; intros h1 count w Hh Hnd Htok Hrec.
- cbn in *; rewrite !app_nil_r, Nat.add_0_r.
  rewrite insert_id by assumption; rewrite world_eta; reflexivity.
- cbn [map fst] in Htok; apply Forall_cons in Htok as [Hf Htok].
  cbn [forallb snd] in Hrec; apply andb_true_iff in Hrec as [Hs Hrec].
  cbn [map fst Script.reassign_loop]; unfold mbind, M_bind.
  rewrite (reassign_one_spec nest h1 f s (h2 ++ h3) count w Hh
             (NoDup_fresh_head h1 (f, s) (h2 ++ h3) Hnd) Hf), Hs.
  rewrite (IH (h1 ++ [rewrite_record nest (f, s)])).
  + cbn [db writes clock stdout].
    rewrite insert_insert_eq, <- !app_assoc.
    change ((f, s) :: h2) with ([(f, s)] ++ h2).
    rewrite filter_app, length_app, omap_app, flat_map_app, Nat.add_assoc.
    cbn [flat_map]; rewrite app_nil_r; reflexivity.
  + cbn [db]; rewrite lookup_insert_eq, <- app_assoc; reflexivity.
  + rewrite <- app_assoc; cbn [app].
    rewrite map_app in Hnd |- *; exact Hnd.
  + exact Htok.
  + exact Hrec.
Qed.

Lemma entries_cons nest fs h t :
  entries nest (fs :: h) t
  = entries nest [fs] t
    ++ entries nest h (t + 2 * length (entries nest [fs] t)).
Proof.
cbn [View.entries].
destruct (decode (snd fs)) as [[| | | | |d]|];
  rewrite ?Nat.add_0_r; try reflexivity.
destruct (py_eq_str (PyDict.get d "nestId" JNull) nest);
  cbn [length app]; rewrite ?Nat.add_0_r; [|reflexivity].
replace (t + 2 * 1) with (S (S t)) by lia; reflexivity.
Qed.

(** One turn of the second loop on the field [f] with the text [s]. *)
Lemma collect_one_spec nest h1 f s h2 acc w :
  db w !! services_key = Some (RHash (h1 ++ (f, s) :: h2)) →
  f ∉ map fst h1 → PyStr.token f →
  collect_one nest f acc w
  = if is_record s then
      (Ret (acc ++ entries nest [(f, s)] (clock w)),
       World (db w) (writes w)
             (clock w + 2 * length (entries nest [(f, s)] (clock w)))
             (stdout w ++ lines_collect nest (f, s)))
    else (Raise AttributeError, w).
Proof.
intros Hh Hf Htok.
unfold Script.collect_one, mbind at 1, M_bind at 1.
rewrite (run_hget w _ f Htok Hh), hget_app_fresh by assumption.
cbn [from_option].
unfold View.is_record, View.lines_collect; cbn [View.entries fst snd].
change (json_loads (PyStr.strip s)) with (decode s).
destruct (decode s) as [[| | | | |d]|] eqn:Hd; try reflexivity.
- unfold get_method, mbind, M_bind, mret, M_ret.
  destruct (py_eq_str (PyDict.get d "nestId" JNull) nest).
  + unfold Script.date_ms, print; cbn [db writes clock stdout length].
    replace (clock w + 2 * 1) with (S (S (clock w))) by lia; reflexivity.
  + cbn [length]; rewrite Nat.add_0_r, !app_nil_r, world_eta; reflexivity.
- unfold mret, M_ret; cbn [length].
  rewrite Nat.add_0_r, !app_nil_r, world_eta; reflexivity.
Qed.

(** The second loop over the fields [h2] of a hash [h1 ++ h2]: the store
    stays as it is, the entries are those of the records [nest] owns. *)
Lemma collect_loop_spec nest h2 : ∀ h1 acc w,
  db w !! services_key = Some (RHash (h1 ++ h2)) →
  NoDup (map fst (h1 ++ h2)) →
  Forall PyStr.token (map fst h2) →
  forallb (λ fs, is_record (snd fs)) h2 = true →
  collect_loop nest (map fst h2) acc w
  = (Ret (acc ++ entries nest h2 (clock w)),
     World (db w) (writes w)
           (clock w + 2 * length (entries nest h2 (clock w)))
           (stdout w ++ flat_map (lines_collect nest) h2)).
Proof.
induction h2 as [|[f s] h2 IH]; intros h1 acc w Hh Hnd Htok Hrec.
- cbn; rewrite !app_nil_r, Nat.add_0_r, world_eta; reflexivity.
- cbn [map fst] in Htok; apply Forall_cons in Htok as [Hf Htok].
  cbn [forallb snd] in Hrec; apply andb_true_iff in Hrec as [Hs Hrec].
  cbn [map fst Script.collect_loop]; unfold mbind, M_bind.
  rewrite (collect_one_spec nest h1 f s h2 acc w Hh
             (NoDup_fresh_head h1 (f, s) h2 Hnd) Hf), Hs.
  rewrite (IH (h1 ++ [(f, s)])).
  + cbn [db writes clock stdout].
    rewrite (entries_cons nest (f, s) h2), length_app, <- !app_assoc.
    cbn [flat_map]; f_equal; f_equal; lia.
  + cbn [db]; rewrite <- app_assoc; exact Hh.
  + rewrite <- app_assoc; exact Hnd.
  + exact Htok.
  + exact Hrec.
Qed.

End LoopFacts.

(** ** A complete run *)

Section RunFacts.

Variable json_loads : string → option json.
Variable json_dumps : json → string.
Variable epoch : nat → Z.

Local Abbreviation decode := (View.decode json_loads).
Local Abbreviation is_record := (View.is_record json_loads).
Local Abbreviation records_ok := (View.records_ok json_loads).
Local Abbreviation reassigned := View.reassigned.
Local Abbreviation rewrite_record := (View.rewrite_record json_loads json_dumps).
Local Abbreviation reassigned_text := (View.reassigned_text json_loads json_dumps).
Local Abbreviation hset_of := (View.hset_of json_loads json_dumps).
Local Abbreviation changed := (View.changed json_loads).
Local Abbreviation owned := (View.owned json_loads).
Local Abbreviation entries := (View.entries json_loads epoch).
Local Abbreviation after_run := (View.after_run json_loads json_dumps epoch).
Local Abbreviation main := (Script.main json_loads json_dumps epoch).

Lemma run_get w :
  Script.run_redis_command "get nest:email:moon.pl.kr@gmail.com" w
  = (Ret (PyStr.strip (fst (Redis.exec ["get"; Script.nest_email_key] (db w)))),
     w).
Proof.
unfold Script.run_redis_command, mbind, M_bind, redis_cli.
change (PyStr.split "get nest:email:moon.pl.kr@gmail.com")
  with ["get"; Script.nest_email_key].
cbn -[PyStr.strip Script.nest_email_key].
destruct (db w !! Script.nest_email_key) as [[v|h]|];
  cbn -[PyStr.strip]; rewrite world_eta; reflexivity.
Qed.

Lemma run_hkeys w :
  store_ok (db w) = true →
  Script.run_redis_command "hkeys scheduler:services" w
  = (Ret (PyStr.strip (String.concat Redis.nl (map fst (services (db w)))
                       +:+ Redis.nl)), w).
Proof.
unfold store_ok, services; intros Hok.
unfold Script.run_redis_command, mbind, M_bind, redis_cli.
change (PyStr.split "hkeys scheduler:services") with ["hkeys"; services_key].
cbn -[PyStr.strip services_key].
destruct (db w !! services_key) as [[v|h]|];
  [discriminate | |]; cbn -[PyStr.strip]; rewrite world_eta; reflexivity.
Qed.

Lemma store_ok_fields d :
  store_ok d = true →
  NoDup (map fst (services d)) ∧ Forall PyStr.token (map fst (services d)).
Proof.
unfold store_ok; rewrite !andb_true_iff, bool_decide_eq_true.
intros [[_ Hnd] Htok]; split; [exact Hnd|].
apply Forall_forall; intros f Hf; apply is_token_spec.
rewrite forallb_forall in Htok; apply Htok, list_elem_of_In, Hf.
Qed.

Lemma store_ok_services d :
  store_ok d = true →
  d !! services_key = Some (RHash (services d))
  ∨ d !! services_key = None ∧ services d = [].
Proof.
unfold store_ok, services.
destruct (d !! services_key) as [[v|h]|]; [discriminate | left | right]; auto.
Qed.

Lemma fields_rewrite_record nest h :
  map fst (map (rewrite_record nest) h) = map fst h.
Proof. rewrite map_map; reflexivity. Qed.

(** A run that does not find its nest stops before it touches Redis. *)
Lemma main_not_found w :
  resolved (lookup_nest (db w)) = false →
  main w
  = (Raise (SystemExit 1),
     World (db w) (writes w) (clock w)
           (stdout w ++ [LBanner; LBlank; LNotFound])).
Proof.
intros Hres.
unfold Script.main, mbind at 1 2, M_bind at 1 2, print at 1 2.
unfold mbind at 1, M_bind at 1; rewrite run_get; cbn [db writes clock stdout].
fold (lookup_nest (db w)).
unfold resolved in Hres; apply negb_false_iff in Hres; rewrite Hres.
unfold mbind, M_bind, print, sys_exit, raise; cbn [db writes clock stdout].
rewrite <- !app_assoc; reflexivity.
Qed.

(** A run stops with [AttributeError] at the first text that decodes to
    something else than an object: the records before it are rewritten,
    nothing after it is read or written. *)
Lemma main_abort nest w h1 f s h2 :
  store_ok (db w) = true →
  services (db w) = h1 ++ (f, s) :: h2 →
  forallb (λ fs, is_record (snd fs)) h1 = true →
  is_record s = false →
  lookup_nest (db w) = nest → resolved nest = true →
  main w
  = (Raise AttributeError,
     World (<[services_key :=
                RHash (map (rewrite_record nest) h1 ++ (f, s) :: h2)]> (db w))
           (writes w ++ omap (hset_of nest) h1)
           (clock w)
           (stdout w
            ++ [LBanner; LBlank; LFound nest; LBlank;
                LFoundServices (length (services (db w))); LBlank]
            ++ flat_map (View.lines_reassign json_loads nest) h1)).
Proof.
intros Hok Hsv Hrec Hs Hnest Hres.
destruct (store_ok_fields _ Hok) as [Hnd Htok].
unfold Script.main, mbind at 1 2, M_bind at 1 2, print at 1 2.
unfold mbind at 1, M_bind at 1; rewrite run_get; cbn [db writes clock stdout].
fold (lookup_nest (db w)); rewrite Hnest.
unfold resolved in Hres; apply negb_true_iff in Hres; rewrite Hres.
unfold mbind at 1 2, M_bind at 1 2, print at 1 2.
unfold mbind at 1, M_bind at 1; rewrite run_hkeys by assumption.
rewrite split_hkeys_reply by assumption.
unfold mbind at 1 2, M_bind at 1 2, print at 1 2.
cbn [db writes clock stdout].
destruct (store_ok_services _ Hok) as [Hh|[_ Hnil]];
  [|rewrite Hnil in Hsv; destruct h1; discriminate].
rewrite length_map; rewrite Hsv in Hh, Hnd, Htok |- *.
rewrite map_app in Htok; apply Forall_app in Htok as [Htok1 Htok2].
cbn [map fst] in Htok2; apply Forall_cons in Htok2 as [Hf _].
unfold mbind at 1, M_bind at 1.
rewrite map_app, reassign_loop_app.
rewrite (reassign_loop_spec json_loads json_dumps nest h1 ((f, s) :: h2) [])
  by (cbn [app db]; assumption).
cbn [app map fst Script.reassign_loop db writes clock stdout].
unfold mbind at 1, M_bind at 1.
rewrite (reassign_one_spec json_loads json_dumps nest
           (map (rewrite_record nest) h1) f s h2), Hs.
- cbn [db writes clock stdout]; rewrite <- !app_assoc; reflexivity.
- cbn [db]; rewrite lookup_insert_eq; reflexivity.
- rewrite fields_rewrite_record; apply (NoDup_fresh_head h1 (f, s) h2 Hnd).
- exact Hf.
Qed.

(** What the script relies on from the [json] module: a decoded value has
    no key twice, a dumped value decodes to itself, and the dumped text has
    no space around it. *)
Hypothesis loads_wf : ∀ s v, json_loads s = Some v → wf_json v = true.
Hypothesis loads_dumps : ∀ v, wf_json v = true → json_loads (json_dumps v) = Some v.
Hypothesis dumps_strip : ∀ v, PyStr.strip (json_dumps v) = json_dumps v.

Lemma decode_reassigned nest s d :
  decode s = Some (JDict d) →
  decode (reassigned_text nest s) = Some (JDict (reassigned d nest)).
Proof.
intros Hd; unfold View.reassigned_text; rewrite Hd.
unfold View.decode; rewrite dumps_strip; apply loads_dumps.
apply wf_setitem; [exact (loads_wf _ _ Hd) | reflexivity].
Qed.

Lemma decode_reassigned_None nest s :
  decode s = None → reassigned_text nest s = s.
Proof. intros Hd; unfold View.reassigned_text; rewrite Hd; reflexivity. Qed.

Lemma is_record_reassigned nest s :
  is_record s = true → is_record (reassigned_text nest s) = true.
Proof.
unfold View.is_record at 1.
destruct (decode s) as [[| | | | |d]|] eqn:Hd; try discriminate; intros _.
- unfold View.is_record; rewrite (decode_reassigned nest s d Hd); reflexivity.
- rewrite decode_reassigned_None by assumption.
  unfold View.is_record; rewrite Hd; reflexivity.
Qed.

Lemma records_rewrite_record nest h :
  forallb (λ fs, is_record (snd fs)) h = true →
  forallb (λ fs, is_record (snd fs)) (map (rewrite_record nest) h) = true.
Proof.
induction h as [|[f s] h IH]; [reflexivity|]; cbn [forallb map snd].
rewrite !andb_true_iff; intros [Hs Hh]; split; [|exact (IH Hh)].
apply is_record_reassigned, Hs.
Qed.

(** A run that finds its nest ends normally, in the world [after_run]. *)
Lemma main_spec nest w :
  store_ok (db w) = true → records_ok (db w) = true →
  lookup_nest (db w) = nest → resolved nest = true →
  main w
  = (Ret (length (filter (changed nest) (services (db w))),
          entries nest (map (rewrite_record nest) (services (db w))) (clock w)),
     after_run nest w).
Proof.
intros Hok Hrec Hnest Hres.
destruct (store_ok_fields _ Hok) as [Hnd Htok].
unfold Script.main, mbind at 1 2, M_bind at 1 2, print at 1 2.
unfold mbind at 1, M_bind at 1; rewrite run_get; cbn [db writes clock stdout].
fold (lookup_nest (db w)); rewrite Hnest.
unfold resolved in Hres; apply negb_true_iff in Hres; rewrite Hres.
unfold mbind at 1 2, M_bind at 1 2, print at 1 2.
unfold mbind at 1, M_bind at 1; rewrite run_hkeys by assumption.
rewrite split_hkeys_reply by assumption.
unfold mbind at 1 2, M_bind at 1 2, print at 1 2.
unfold View.after_run, put_services.
destruct (store_ok_services _ Hok) as [Hh|[Hh Hnil]].
- unfold mbind at 1, M_bind at 1.
  rewrite (reassign_loop_spec json_loads json_dumps nest _ [] [])
    by (cbn [app db]; rewrite ?app_nil_r; assumption).
  cbn [app db writes clock stdout]; rewrite app_nil_r.
  unfold mbind at 1 2 3, M_bind at 1 2 3, print at 1 2 3.
  unfold mbind at 1, M_bind at 1.
  pose proof (collect_loop_spec json_loads epoch nest
                (map (rewrite_record nest) (services (db w))) []) as Hc.
  cbn [app] in Hc; rewrite fields_rewrite_record in Hc.
  rewrite Hc; cbn [app db writes clock stdout];
    [ | rewrite lookup_insert_eq; reflexivity
      | assumption
      | assumption
      | apply records_rewrite_record; assumption ].
  clear Hc.
  unfold mbind, M_bind, print, mret, M_ret, redis_cli.
  cbn -[Script.nest_services_key services_key View.entries].
  rewrite Hh, length_map, <- !app_assoc; reflexivity.
- cbn [db writes clock stdout].
  rewrite Hnil, Hh; cbn [map Script.reassign_loop Script.collect_loop].
  unfold mbind, M_bind, print, mret, M_ret, redis_cli.
  cbn -[Script.nest_services_key services_key].
  rewrite ?app_nil_r, <- ?app_assoc, ?Nat.add_0_r; reflexivity.
Qed.

End RunFacts.

(** ** The codec keeps the contract the script relies on *)

Section CodecFacts.
Import RefJson.

Lemma append_cons c s t : String c s +:+ t = String c (s +:+ t).
Proof. reflexivity. Qed.

Lemma parse_escape_char c more :
  parse_string (escape_char c +:+ more) = cons_char c (parse_string more).
Proof.
destruct c as [[] [] [] [] [] [] [] []]; reflexivity.
Qed.

Lemma parse_escape s rest :
  parse_string (escape s +:+ String dq rest) = Some (s, rest).
Proof.
induction s as [|c s IH].
- reflexivity.
- cbn [escape]; rewrite append_assoc, parse_escape_char, IH; reflexivity.
Qed.

Lemma parse_dump_string s rest :
  parse_string (escape s +:+ String dq EmptyString +:+ rest) = Some (s, rest).
Proof. rewrite append_cons; apply parse_escape. Qed.

Lemma delimited_no_digit rest : delimited rest = true → no_digit_ahead rest.
Proof.
destruct rest as [|c r]; [exact (λ _, I)|]; cbn.
rewrite negb_true_iff, !orb_false_iff; tauto.
Qed.

Lemma span_digits_uint u rest :
  no_digit_ahead rest →
  span_digits (NilEmpty.string_of_uint u +:+ rest)
  = (NilEmpty.string_of_uint u, rest).
Proof.
intros Hr; induction u; cbn [NilEmpty.string_of_uint];
  rewrite ?append_cons; cbn [span_digits];
  try (change (is_digit _) with true; cbv iota; rewrite IHu; reflexivity).
destruct rest as [|c r]; [reflexivity|].
change (EmptyString +:+ String c r) with (String c r).
cbn [span_digits]; rewrite Hr; reflexivity.
Qed.

Lemma to_uint_head p :
  ∃ c s, NilEmpty.string_of_uint (Pos.to_uint p) = String c s
         ∧ is_digit c = true ∧ Ascii.eqb c "0" = false
         ∧ Ascii.eqb c "-" = false.
Proof.
pose proof (Unsigned.to_uint_nonnil p) as Hnil.
assert (Hnorm : unorm (Pos.to_uint p) = Pos.to_uint p).
{ rewrite <- (Unsigned.to_of (Pos.to_uint p)), Unsigned.of_to; reflexivity. }
pose proof (Unsigned.to_uint_nonzero p) as Hnz.
destruct (Pos.to_uint p) as [|u|u|u|u|u|u|u|u|u|u] eqn:E;
  try (eexists _, _; repeat split; reflexivity); [congruence|].
exfalso. rewrite unorm_D0 in Hnorm. unfold unorm in Hnorm.
destruct (nzhead u) eqn:Hu; try (apply (nzhead_nonzero u u); congruence).
Qed.

Lemma parse_digits_uint neg u rest :
  (∃ c s, NilEmpty.string_of_uint u = String c s ∧ Ascii.eqb c "0" = false) ∨
  u = zero →
  delimited rest = true →
  parse_digits neg (NilEmpty.string_of_uint u +:+ rest)
  = Some (Z.of_int (if neg then Neg u else Pos u), rest).
Proof.
intros Hu Hd; unfold parse_digits.
rewrite span_digits_uint by (apply delimited_no_digit, Hd).
rewrite NilEmpty.usu, Hd.
destruct Hu as [(c & s & -> & ->)| ->]; reflexivity.
Qed.

Lemma parse_dump_int n rest :
  delimited rest = true → parse_int (dump_int n +:+ rest) = Some (n, rest).
Proof.
intros Hd; unfold dump_int, parse_int.
rewrite <- (DecimalZ.of_to n) at 2.
destruct n as [|p|p]; cbn [Z.to_int NilEmpty.string_of_int].
- change (NilEmpty.string_of_uint zero +:+ rest) with (String "0" rest).
  cbn [Ascii.eqb Bool.eqb].
  change (String "0" rest) with (NilEmpty.string_of_uint zero +:+ rest).
  apply (parse_digits_uint false); [right; reflexivity | exact Hd].
- destruct (to_uint_head p) as (c & s & Hs & Hdig & H0 & Hm).
  pose proof (parse_digits_uint false (Pos.to_uint p) rest) as H.
  rewrite Hs in H |- *; rewrite append_cons in H |- *; rewrite Hm.
  apply H; [left; eauto | exact Hd].
- destruct (to_uint_head p) as (c & s & Hs & Hdig & H0 & Hm).
  rewrite append_cons; cbn [Ascii.eqb Bool.eqb].
  apply (parse_digits_uint true); [left; eauto | exact Hd].
Qed.

Lemma digit_starter c : is_digit c = true → starter c = true.
Proof. destruct c as [[] [] [] [] [] [] [] []]; cbv; congruence. Qed.

Lemma dumps_head v : ∃ c r, dumps v = String c r ∧ starter c = true.
Proof.
destruct v as [|[]|n|s|l|d]; try (eexists _, _; split; reflexivity).
unfold dumps, dump_int.
destruct n as [|p|p]; cbn [Z.to_int NilEmpty.string_of_int];
  try (eexists _, _; split; reflexivity).
destruct (to_uint_head p) as (c & s & -> & Hdig & _).
eexists _, _; split; [reflexivity | apply digit_starter, Hdig].
Qed.

Lemma skip_ws_starter c r : starter c = true → skip_ws (String c r) = String c r.
Proof.
unfold starter; rewrite !andb_true_iff, !negb_true_iff.
intros [[[_ Hws] _] _]; unfold skip_ws; cbn [PyStr.lstrip]; rewrite Hws.
reflexivity.
Qed.

Lemma skip_ws_dumps v r : skip_ws (dumps v +:+ r) = dumps v +:+ r.
Proof.
destruct (dumps_head v) as (c & s & -> & Hc).
rewrite append_cons; apply skip_ws_starter, Hc.
Qed.

Lemma length_append s t :
  String.length (s +:+ t) = String.length s + String.length t.
Proof.
induction s as [|c s IH]; [reflexivity|].
rewrite append_cons; cbn [String.length]; rewrite IH; reflexivity.
Qed.

Lemma dumps_length_pos v : 1 ≤ String.length (dumps v).
Proof. destruct (dumps_head v) as (c & s & -> & _); cbn; lia. Qed.

Lemma items_cons2 x y l :
  items (x :: y :: l) = dumps x +:+ String "," (String " " (items (y :: l))).
Proof. reflexivity. Qed.

Lemma mitems_cons2 x y l :
  mitems (x :: y :: l)
  = pair_text x +:+ String "," (String " " (mitems (y :: l))).
Proof. reflexivity. Qed.

Lemma parse_elements_items l :
  Forall round_trip l → forallb wf_json l = true → l ≠ [] →
  ∀ fuel rest, String.length (items l) + 1 < fuel →
    parse_elements fuel (items l +:+ String "]" rest) = Some (l, rest).
Proof.
induction 1 as [|x l Hx Hl IH]; [congruence|].
cbn [forallb]; rewrite andb_true_iff; intros [Hwx Hwl] _ fuel rest Hfuel.
destruct fuel as [|fuel]; [lia|]; cbn [parse_elements].
destruct l as [|y l].
- change (items [x]) with (dumps x) in *.
  rewrite (Hx Hwx) by (reflexivity || lia).
  reflexivity.
- rewrite items_cons2 in *; rewrite append_assoc, !append_cons.
  rewrite length_append in Hfuel; cbn [String.length] in Hfuel.
  rewrite (Hx Hwx) by (reflexivity || lia).
  change (skip_ws (String "," ?s)) with (String "," s).
  cbn [Ascii.eqb Bool.eqb].
  change (skip_ws (String " " ?s)) with (skip_ws s).
  unfold items at 1; cbn [map String.concat].
  fold (items (y :: l)).
  assert (Hskip : ∀ r, skip_ws (items (y :: l) +:+ r) = items (y :: l) +:+ r).
  { intros r; destruct l as [|z l].
    - apply skip_ws_dumps.
    - rewrite items_cons2, append_assoc; apply skip_ws_dumps. }
  rewrite Hskip, IH by (assumption || congruence || lia); reflexivity.
Qed.

Lemma skip_ws_mitems d r : d ≠ [] → skip_ws (mitems d +:+ r) = mitems d +:+ r.
Proof.
destruct d as [|x [|y d]]; [congruence| |]; intros _; reflexivity.
Qed.

Lemma parse_members_items d :
  Forall (λ kv, round_trip (snd kv)) d →
  forallb (λ kv, wf_json (snd kv)) d = true → d ≠ [] →
  ∀ fuel rest, String.length (mitems d) + 1 < fuel →
    parse_members fuel (mitems d +:+ String "}" rest) = Some (d, rest).
Proof.
induction 1 as [|[k x] d Hx Hd IH]; [congruence|].
cbn [forallb snd] in *; rewrite andb_true_iff.
intros [Hwx Hwd] _ fuel rest Hfuel.
destruct fuel as [|fuel]; [lia|]; cbn [parse_members].
assert (Hpair : ∀ r, pair_text (k, x) +:+ r
                     = String dq (escape k +:+ String dq
                         (String ":" (String " " (dumps x +:+ r))))).
{ intros r; unfold pair_text, dump_string; cbn [fst snd].
  rewrite !append_cons, !append_assoc; reflexivity. }
assert (Hlen : String.length (dumps x) + 4 ≤ String.length (pair_text (k, x))).
{ unfold pair_text, dump_string; cbn [fst snd].
  rewrite !append_cons; cbn [String.length].
  rewrite !length_append; cbn [String.length].
  change (EmptyString +:+ dumps x) with (dumps x); lia. }
destruct d as [|y d].
- change (mitems [(k, x)]) with (pair_text (k, x)) in *.
  rewrite Hpair; cbn [Ascii.eqb Bool.eqb negb]; rewrite parse_escape.
  change (skip_ws (String ":" ?s)) with (String ":" s).
  cbn [Ascii.eqb Bool.eqb negb].
  change (skip_ws (String " " ?s)) with (skip_ws s).
  rewrite skip_ws_dumps, (Hx Hwx) by (reflexivity || lia).
  reflexivity.
- rewrite mitems_cons2 in *; rewrite append_assoc, !append_cons.
  rewrite length_append in Hfuel; cbn [String.length] in Hfuel.
  rewrite Hpair; cbn [Ascii.eqb Bool.eqb negb]; rewrite parse_escape.
  change (skip_ws (String ":" ?s)) with (String ":" s).
  cbn [Ascii.eqb Bool.eqb negb].
  change (skip_ws (String " " ?s)) with (skip_ws s).
  rewrite skip_ws_dumps, (Hx Hwx) by (reflexivity || lia).
  change (skip_ws (String "," ?s)) with (String "," s).
  cbn [Ascii.eqb Bool.eqb].
  change (skip_ws (String " " ?s)) with (skip_ws s).
  rewrite skip_ws_mitems, IH by (assumption || congruence || lia).
  reflexivity.
Qed.

Lemma dict_of_pairs_app acc d :
  NoDup (map fst (acc ++ d)) →
  fold_left (λ a kv, PyDict.setitem a (fst kv) (snd kv)) d acc = acc ++ d.
Proof.
revert acc; induction d as [|[k v] d IH]; intros acc Hnd; cbn [fold_left].
- rewrite app_nil_r; reflexivity.
- assert (Hset : PyDict.setitem acc k v = acc ++ [(k, v)]).
  { apply NoDup_fresh_head in Hnd; cbn [fst] in Hnd; clear IH.
    induction acc as [|[k0 v0] acc IHa]; [reflexivity|]; cbn in Hnd |- *.
    apply not_elem_of_cons in Hnd as [Hne Hnd].
    destruct (String.eqb_spec k0 k); [congruence|].
    rewrite IHa by assumption; reflexivity. }
  cbn [fst snd]; rewrite Hset, IH; rewrite <- app_assoc; [reflexivity|exact Hnd].
Qed.

Lemma dict_of_pairs_nodup d : NoDup (map fst d) → dict_of_pairs d = d.
Proof. intros Hnd; apply (dict_of_pairs_app [] d Hnd). Qed.

Theorem parse_dumps v : round_trip v.
Proof.
induction v as [|b|n|s|l IH|d IH] using json_ind; intros Hwf fuel rest Hfuel Hrest;
  (destruct fuel as [|fuel]; [lia|]).
- reflexivity.
- destruct b; reflexivity.
- assert (Hh : ∃ c s, dump_int n = String c s
                      ∧ is_digit c || Ascii.eqb c "-" = true).
  { unfold dump_int; destruct n as [|p|p];
      cbn [Z.to_int NilEmpty.string_of_int];
      try (eexists _, _; split; reflexivity).
    destruct (to_uint_head p) as (c & s & -> & Hdig & _).
    eexists _, _; split; [reflexivity | rewrite Hdig; reflexivity]. }
  destruct Hh as (c & s & Hs & Hc).
  pose proof (parse_dump_int n rest Hrest) as Hn.
  cbn [dumps]; rewrite Hs in Hn |- *; rewrite append_cons in Hn |- *.
  destruct c as [[] [] [] [] [] [] [] []];
    try (cbv in Hc; discriminate Hc);
    cbn [parse_value Ascii.eqb Bool.eqb]; rewrite Hn; reflexivity.
- cbn [dumps parse_value]; unfold dump_string.
  rewrite append_cons; cbn [Ascii.eqb Bool.eqb].
  rewrite append_assoc, append_cons.
  change (EmptyString +:+ rest) with rest.
  rewrite parse_escape; reflexivity.
- assert (Htxt : dumps (JList l) +:+ rest
                 = String "[" (items l +:+ String "]" rest)).
  { cbn [dumps]; fold (items l); rewrite !append_cons.
    change (EmptyString +:+ ?x) with x.
    rewrite ?append_assoc; reflexivity. }
  assert (Hlen : String.length (dumps (JList l))
                 = S (String.length (items l) + 1)).
  { cbn [dumps]; fold (items l); rewrite !append_cons.
    change (EmptyString +:+ ?x) with x.
    cbn [String.length]; rewrite length_append; reflexivity. }
  rewrite Htxt; rewrite Hlen in Hfuel; clear Htxt Hlen.
  cbn [parse_value Ascii.eqb Bool.eqb].
  destruct l as [|x l]; [reflexivity|].
  assert (Hskip : ∀ r, skip_ws (items (x :: l) +:+ r) = items (x :: l) +:+ r).
  { intros r; destruct l as [|z l].
    - apply skip_ws_dumps.
    - rewrite items_cons2, append_assoc; apply skip_ws_dumps. }
  rewrite Hskip.
  assert (Hhead : ∃ c r, items (x :: l) +:+ String "]" rest = String c r
                         ∧ Ascii.eqb c "]" = false).
  { destruct (dumps_head x) as (c & r & Hd & Hc).
    unfold starter in Hc; rewrite !andb_true_iff, !negb_true_iff in Hc.
    destruct l as [|z l].
    - change (items [x]) with (dumps x); rewrite Hd, append_cons; eexists _, _.
      split; [reflexivity | tauto].
    - rewrite items_cons2, Hd, !append_cons; eexists _, _.
      split; [reflexivity | tauto]. }
  destruct Hhead as (c & r & Hcr & Hc); rewrite Hcr, Hc, <- Hcr.
  rewrite parse_elements_items; [reflexivity|exact IH|exact Hwf|congruence|lia].
- cbn [wf_json] in Hwf; apply andb_true_iff in Hwf as [Hnd Hwf].
  apply bool_decide_eq_true in Hnd.
  assert (Htxt : dumps (JDict d) +:+ rest
                 = String "{" (mitems d +:+ String "}" rest)).
  { cbn [dumps]; fold pair_text; fold (mitems d); rewrite !append_cons.
    change (EmptyString +:+ ?x) with x.
    rewrite ?append_assoc; reflexivity. }
  assert (Hlen : String.length (dumps (JDict d))
                 = S (String.length (mitems d) + 1)).
  { cbn [dumps]; fold pair_text; fold (mitems d); rewrite !append_cons.
    change (EmptyString +:+ ?x) with x.
    cbn [String.length]; rewrite length_append; reflexivity. }
  rewrite Htxt; rewrite Hlen in Hfuel; clear Htxt Hlen.
  cbn [parse_value Ascii.eqb Bool.eqb].
  destruct d as [|x d]; [reflexivity|].
  rewrite skip_ws_mitems by congruence.
  assert (Hhead : ∃ r, mitems (x :: d) +:+ String "}" rest = String dq r).
  { destruct d as [|z d].
    - change (mitems [x]) with (pair_text x); unfold pair_text, dump_string.
      rewrite !append_cons; eexists; reflexivity.
    - rewrite mitems_cons2; unfold pair_text, dump_string.
      rewrite !append_cons; eexists; reflexivity. }
  destruct Hhead as (r & Hr); rewrite Hr.
  cbn [Ascii.eqb Bool.eqb]; rewrite <- Hr.
  rewrite parse_members_items; [|exact IH|exact Hwf|congruence|lia].
  rewrite dict_of_pairs_nodup by assumption; reflexivity.
Qed.

Theorem ref_loads_dumps v : wf_json v = true → loads (dumps v) = Some v.
Proof.
intros Hwf; unfold loads.
pose proof (skip_ws_dumps v EmptyString) as Hskip.
rewrite append_empty_r in Hskip; rewrite Hskip.
pose proof (parse_dumps v Hwf (S (String.length (dumps v))) EmptyString) as H.
rewrite append_empty_r in H; rewrite H by (reflexivity || lia); reflexivity.
Qed.

Lemma uint_last_digit u c :
  PyStr.last_char (NilEmpty.string_of_uint u) = Some c → is_digit c = true.
Proof.
induction u; cbn [NilEmpty.string_of_uint PyStr.last_char];
  try discriminate;
  (destruct (NilEmpty.string_of_uint u) eqn:E;
   [intros [= <-]; reflexivity | exact IHu]).
Qed.

Lemma last_char_cons c s : PyStr.last_char (String c s) ≠ None.
Proof.
revert c; induction s as [|a s IH]; intros c; [discriminate|].
cbn [PyStr.last_char]; apply IH.
Qed.

Lemma digit_nospace c : is_digit c = true → PyStr.isspace c = false.
Proof. destruct c as [[] [] [] [] [] [] [] []]; cbv; congruence. Qed.

Lemma dumps_last v :
  ∃ c, PyStr.last_char (dumps v) = Some c ∧ PyStr.isspace c = false.
Proof.
destruct v as [|[]|n|s|l|d]; try (eexists; split; reflexivity).
- unfold dumps, dump_int.
  destruct n as [|p|p]; cbn [Z.to_int NilEmpty.string_of_int];
    try (eexists; split; reflexivity).
  + destruct (to_uint_head p) as (c & s & Hs & _).
    destruct (PyStr.last_char (NilEmpty.string_of_uint (Pos.to_uint p)))
      as [c'|] eqn:E.
    * exists c'; split; [reflexivity|].
      apply digit_nospace, (uint_last_digit _ _ E).
    * rewrite Hs in E; destruct (last_char_cons _ _ E).
  + destruct (to_uint_head p) as (c & s & Hs & _).
    assert (Hl : PyStr.last_char
                   (String "-" (NilEmpty.string_of_uint (Pos.to_uint p)))
                 = PyStr.last_char (NilEmpty.string_of_uint (Pos.to_uint p))).
    { rewrite Hs; reflexivity. }
    rewrite Hl; clear Hl.
    destruct (PyStr.last_char (NilEmpty.string_of_uint (Pos.to_uint p)))
      as [c'|] eqn:E.
    * exists c'; split; [reflexivity|].
      apply digit_nospace, (uint_last_digit _ _ E).
    * rewrite Hs in E; destruct (last_char_cons _ _ E).
- exists dq; split; [|reflexivity].
  cbn [dumps]; unfold dump_string.
  change (String dq (escape s +:+ String dq EmptyString))
    with (String dq (escape s) +:+ String dq EmptyString).
  apply last_char_app.
- exists "]"%char; split; [|reflexivity].
  cbn [dumps]; rewrite <- append_assoc; apply last_char_app.
- exists "}"%char; split; [|reflexivity].
  cbn [dumps]; rewrite <- append_assoc; apply last_char_app.
Qed.

Theorem ref_dumps_strip v : PyStr.strip (dumps v) = dumps v.
Proof.
unfold PyStr.strip, PyStr.strip_chars.
destruct (dumps_last v) as (c & Hlast & Hc).
destruct (dumps_head v) as (a & r & Hd & Ha).
assert (Hl : PyStr.lstrip PyStr.isspace (dumps v) = dumps v).
{ rewrite Hd; cbn [PyStr.lstrip].
  unfold starter in Ha; rewrite !andb_true_iff, !negb_true_iff in Ha.
  destruct Ha as [[[-> _] _] _]; reflexivity. }
rewrite Hl; apply (rstrip_last _ _ c Hlast Hc).
Qed.

Lemma dict_of_pairs_wf pairs :
  forallb (λ kv, wf_json (snd kv)) pairs = true →
  wf_json (JDict (dict_of_pairs pairs)) = true.
Proof.
unfold dict_of_pairs.
assert (H : ∀ acc, wf_json (JDict acc) = true →
            forallb (λ kv, wf_json (snd kv)) pairs = true →
            wf_json (JDict (fold_left
              (λ a kv, PyDict.setitem a (fst kv) (snd kv)) pairs acc)) = true).
{ induction pairs as [|[k v] pairs IH]; intros acc Hacc Hp; [exact Hacc|].
  cbn [forallb snd] in Hp; apply andb_true_iff in Hp as [Hv Hp].
  cbn [fold_left fst snd]; apply IH; [|exact Hp].
  apply wf_setitem; assumption. }
apply H; reflexivity.
Qed.

Ltac break_match H :=
  repeat match type of H with
         | context [match ?x with _ => _ end] =>
             destruct x eqn:?; try discriminate H
         end.

Lemma parse_wf fuel :
  (∀ s v r, parse_value fuel s = Some (v, r) → wf_json v = true)
  ∧ (∀ s l r, parse_elements fuel s = Some (l, r) → forallb wf_json l = true)
  ∧ (∀ s l r, parse_members fuel s = Some (l, r) →
       forallb (λ kv, wf_json (snd kv)) l = true).
Proof.
induction fuel as [|fuel (IHv & IHe & IHm)]; [repeat split; discriminate|].
repeat split.
- intros s v r H; cbn [parse_value] in H; break_match H;
    injection H as <- <-; try reflexivity.
  + eapply IHe; eassumption.
  + apply dict_of_pairs_wf; eapply IHm; eassumption.
- intros s l r H; cbn [parse_elements] in H; break_match H;
    injection H as <- <-; cbn [forallb]; rewrite ?andb_true_r.
  + erewrite IHv by eassumption; eapply IHe; eassumption.
  + eapply IHv; eassumption.
- intros s l r H; cbn [parse_members] in H; break_match H;
    injection H as <- <-; cbn [forallb snd]; rewrite ?andb_true_r.
  + erewrite IHv by eassumption; eapply IHm; eassumption.
  + eapply IHv; eassumption.
Qed.

Theorem ref_loads_wf s v : loads s = Some v → wf_json v = true.
Proof.
unfold loads; intros H; break_match H; injection H as <-.
eapply (proj1 (parse_wf _)); eassumption.
Qed.

End CodecFacts.

(** ** The store after a run *)

Section StoreFacts.

Lemma nest_services_key_not_services nest :
  Script.nest_services_key nest ≠ services_key.
Proof. unfold Script.nest_services_key; discriminate. Qed.

Lemma nest_services_key_not_email nest :
  Script.nest_services_key nest ≠ Script.nest_email_key.
Proof.
unfold Script.nest_services_key, Script.nest_email_key; intros H.
change (String "n" (String "e" (String "s" (String "t" (String ":"
          (nest +:+ ":services")))))
        = String "n" (String "e" (String "s" (String "t" (String ":"
            "email:moon.pl.kr@gmail.com"))))) in H.
injection H as H; apply (f_equal PyStr.last_char) in H.
rewrite last_char_append in H by discriminate; discriminate H.
Qed.

Lemma services_insert_other k v d :
  k ≠ services_key → services (<[k := v]> d) = services d.
Proof. intros Hk; unfold services; rewrite lookup_insert_ne by exact Hk; reflexivity. Qed.

Lemma services_put_services d h :
  services d = [] → h = [] ∨ is_Some (d !! services_key) →
  services (put_services d h) = h.
Proof.
unfold services, put_services.
destruct (d !! services_key) as [v|] eqn:E.
- intros _ _; rewrite lookup_insert_eq; reflexivity.
- intros _ [->|[v Hv]]; [rewrite E; reflexivity | discriminate].
Qed.

Lemma lookup_nest_ext d d' :
  d' !! Script.nest_email_key = d !! Script.nest_email_key →
  lookup_nest d' = lookup_nest d.
Proof.
unfold lookup_nest, Redis.exec; cbn -[PyStr.strip]; intros ->.
destruct (d !! Script.nest_email_key) as [[v|h]|]; reflexivity.
Qed.

End StoreFacts.

Section AfterRunFacts.

Variable json_loads : string → option json.
Variable json_dumps : json → string.
Variable epoch : nat → Z.

Local Abbreviation decode := (View.decode json_loads).
Local Abbreviation is_record := (View.is_record json_loads).
Local Abbreviation records_ok := (View.records_ok json_loads).
Local Abbreviation reassigned := View.reassigned.
Local Abbreviation rewrite_record := (View.rewrite_record json_loads json_dumps).
Local Abbreviation reassigned_text := (View.reassigned_text json_loads json_dumps).
Local Abbreviation hset_of := (View.hset_of json_loads json_dumps).
Local Abbreviation changed := (View.changed json_loads).
Local Abbreviation owned := (View.owned json_loads).
Local Abbreviation entries := (View.entries json_loads epoch).
Local Abbreviation after_run := (View.after_run json_loads json_dumps epoch).

Lemma services_after_run nest w :
  services (db (after_run nest w))
  = map (rewrite_record nest) (services (db w)).
Proof.
unfold View.after_run; cbn [db].
rewrite services_insert_other by apply nest_services_key_not_services.
unfold put_services, services.
destruct (db w !! services_key) as [[v|h]|] eqn:E;
  rewrite ?lookup_insert_eq, ?E; reflexivity.
Qed.

Lemma lookup_after_run_other nest w k :
  k ≠ services_key → k ≠ Script.nest_services_key nest →
  db (after_run nest w) !! k = db w !! k.
Proof.
intros Hs Hn; unfold View.after_run, put_services; cbn [db].
rewrite lookup_insert_ne by congruence.
destruct (db w !! services_key); [|reflexivity].
rewrite lookup_insert_ne by congruence; reflexivity.
Qed.

Lemma lookup_nest_after_run nest w :
  lookup_nest (db (after_run nest w)) = lookup_nest (db w).
Proof.
apply lookup_nest_ext, lookup_after_run_other; [discriminate|].
intros H; symmetry in H; exact (nest_services_key_not_email nest H).
Qed.

Lemma store_ok_after_run nest w :
  store_ok (db w) = true → store_ok (db (after_run nest w)) = true.
Proof.
unfold store_ok; rewrite services_after_run.
rewrite (fields_rewrite_record json_loads json_dumps).
intros H; apply andb_true_iff in H as [H Htok].
apply andb_true_iff in H as [Htyp Hnd].
rewrite Hnd, Htok, !andb_true_r.
unfold View.after_run, put_services; cbn [db].
rewrite lookup_insert_ne
  by (intros E; exact (nest_services_key_not_services nest E)).
destruct (db w !! services_key) as [[v|h]|] eqn:E;
  rewrite ?lookup_insert_eq, ?E; [discriminate|reflexivity..].
Qed.

Lemma hget_rewritten nest h f :
  Redis.hget (map (rewrite_record nest) h) f
  = reassigned_text nest <$> Redis.hget h f.
Proof. apply (hget_map_value (reassigned_text nest)). Qed.

Lemma get_reassigned d nest :
  PyDict.get (reassigned d nest) "nestId" JNull = JStr nest.
Proof. unfold PyDict.get, View.reassigned; rewrite lookup_setitem_eq; reflexivity. Qed.

Lemma py_eq_str_refl s : py_eq_str (JStr s) s = true.
Proof. apply String.eqb_refl. Qed.

(** [changed] says that the record decodes and that its [nestId] is not
    the string [nest]. *)
Lemma changed_spec nest fs :
  changed nest fs = true
  ↔ ∃ d, decode (snd fs) = Some (JDict d)
         ∧ PyDict.lookup d "nestId" ≠ Some (JStr nest).
Proof.
unfold View.changed, py_ne_str, PyDict.get.
destruct (decode (snd fs)) as [[| | | | |d]|]; split;
  try discriminate; try (intros (d' & Hd & _); discriminate Hd).
- rewrite negb_true_iff; intros H; exists d; split; [reflexivity|].
  intros E; rewrite E, py_eq_str_refl in H; discriminate.
- intros (d' & [= <-] & Hne); rewrite negb_true_iff.
  destruct (PyDict.lookup d "nestId") as [[| | |s| |]|]; try reflexivity.
  cbn; destruct (String.eqb_spec s nest); [congruence | reflexivity].
Qed.

(** The entries of the second loop go one to one with the records that
    [nest] owns, in the order of the hash. *)
Lemma entries_Forall2 nest h t :
  Forall2 (λ e fs, ∃ d t1 t2, decode (snd fs) = Some (JDict d)
                     ∧ e = Script.service_obj (fst fs) nest d t1 t2)
          (entries nest h t) (filter (owned nest) h).
Proof.
revert t; induction h as [|fs h IH]; intros t; [constructor|].
cbn [View.entries]; rewrite filter_cons.
destruct (owned nest fs) eqn:Ho; unfold View.owned in Ho.
- rewrite decide_True by exact I.
  destruct (decode (snd fs)) as [[| | | | |d]|] eqn:Hd; try discriminate.
  rewrite Ho; constructor; [|apply IH].
  exists d; eauto.
- rewrite decide_False by exact id.
  destruct (decode (snd fs)) as [[| | | | |d]|] eqn:Hd; try apply IH.
  rewrite Ho; apply IH.
Qed.

Lemma entries_length nest h t :
  length (entries nest h t) = length (filter (owned nest) h).
Proof. exact (Forall2_length _ _ _ (entries_Forall2 nest h t)). Qed.

Hypothesis loads_wf : ∀ s v, json_loads s = Some v → wf_json v = true.
Hypothesis loads_dumps : ∀ v, wf_json v = true → json_loads (json_dumps v) = Some v.
Hypothesis dumps_strip : ∀ v, PyStr.strip (json_dumps v) = json_dumps v.

Local Abbreviation decode_reassigned :=
  (decode_reassigned json_loads json_dumps loads_wf loads_dumps dumps_strip).

(** After the first loop [nest] owns exactly the records that decode. *)
Lemma owned_rewritten nest fs :
  is_record (snd fs) = true →
  owned nest (rewrite_record nest fs)
  = bool_decide (is_Some (decode (snd fs))).
Proof.
unfold View.is_record, View.owned, View.rewrite_record; cbn [snd].
destruct (decode (snd fs)) as [[| | | | |d]|] eqn:Hd; try discriminate; intros _.
- rewrite (decode_reassigned nest _ d Hd), get_reassigned, py_eq_str_refl.
  symmetry; apply bool_decide_eq_true; eauto.
- rewrite decode_reassigned_None, Hd by assumption.
  symmetry; apply bool_decide_eq_false; intros [v Hv]; discriminate.
Qed.

Lemma filter_owned_rewritten nest h :
  forallb (λ fs, is_record (snd fs)) h = true →
  filter (owned nest) (map (rewrite_record nest) h)
  = map (rewrite_record nest) (filter (λ fs, is_Some (decode (snd fs))) h).
Proof.
induction h as [|fs h IH]; [reflexivity|]; cbn [forallb map].
rewrite andb_true_iff; intros [Hfs Hh].
rewrite !filter_cons, owned_rewritten, IH by assumption.
destruct (decide (is_Some (decode (snd fs)))) as [Hs|Hs].
- rewrite bool_decide_eq_true_2, decide_True by (exact Hs || exact I).
  reflexivity.
- rewrite bool_decide_eq_false_2, decide_False by (exact Hs || exact id).
  reflexivity.
Qed.

Lemma records_ok_after_run nest w :
  records_ok (db w) = true → records_ok (db (after_run nest w)) = true.
Proof.
unfold View.records_ok; rewrite services_after_run.
apply (records_rewrite_record json_loads json_dumps loads_wf loads_dumps
         dumps_strip).
Qed.

Lemma reassigned_text_twice nest s :
  reassigned_text nest (reassigned_text nest s) = reassigned_text nest s.
Proof.
destruct (decode s) as [[| | | | |d]|] eqn:Hd;
  try (unfold View.reassigned_text at 2; rewrite Hd;
       unfold View.reassigned_text; rewrite Hd; reflexivity).
unfold View.reassigned_text at 1.
rewrite (decode_reassigned nest s d Hd).
unfold View.reassigned_text; rewrite Hd.
unfold View.reassigned; rewrite setitem_twice; reflexivity.
Qed.

Lemma rewrite_record_twice nest h :
  map (rewrite_record nest) (map (rewrite_record nest) h)
  = map (rewrite_record nest) h.
Proof.
rewrite map_map; apply map_ext; intros [f s].
unfold View.rewrite_record; cbn [fst snd].
rewrite reassigned_text_twice; reflexivity.
Qed.

(** Every record that decodes has its entry in the rebuilt list. *)
Lemma entries_rewritten_in nest h f s d :
  (f, s) ∈ h → decode s = Some (JDict d) → ∀ t,
  ∃ t1 t2, Script.service_obj f nest (reassigned d nest) t1 t2
           ∈ entries nest (map (rewrite_record nest) h) t.
Proof.
induction h as [|fs h IH]; intros Hin Hd t; [inversion Hin|].
apply elem_of_cons in Hin as [<-|Hin];
  cbn [map View.entries]; unfold View.rewrite_record at 1; cbn [fst snd].
- rewrite (decode_reassigned nest s d Hd), get_reassigned, py_eq_str_refl.
  eexists _, _; left.
- destruct (decode (reassigned_text nest (snd fs))) as [[| | | | |d']|];
    try exact (IH Hin Hd t).
  destruct (py_eq_str (PyDict.get d' "nestId" JNull) nest);
    [|exact (IH Hin Hd t)].
  destruct (IH Hin Hd (S (S t))) as (t1 & t2 & H).
  exists t1, t2; right; exact H.
Qed.

(** Every entry of the rebuilt list comes from a record that decodes. *)
Lemma entries_rewritten_from nest h t e :
  e ∈ entries nest (map (rewrite_record nest) h) t →
  ∃ f s d t1 t2, (f, s) ∈ h ∧ decode s = Some (JDict d)
     ∧ e = Script.service_obj f nest (reassigned d nest) t1 t2.
Proof.
revert t; induction h as [|[f s] h IH]; intros t; [inversion 1|].
assert (Hrest : ∀ t', e ∈ entries nest (map (rewrite_record nest) h) t' →
          ∃ f0 s0 d t1 t2, (f0, s0) ∈ (f, s) :: h ∧ decode s0 = Some (JDict d)
            ∧ e = Script.service_obj f0 nest (reassigned d nest) t1 t2).
{ intros t' H; destruct (IH t' H) as (f0 & s0 & d & t1 & t2 & Hin & Hd & He).
  exists f0, s0, d, t1, t2; split; [right; exact Hin | auto]. }
cbn [map View.entries]; unfold View.rewrite_record at 1; cbn [fst snd].
destruct (decode s) as [[| | | | |d]|] eqn:Hd;
  try (unfold View.reassigned_text; rewrite Hd, Hd; apply Hrest).
rewrite (decode_reassigned nest s d Hd), get_reassigned, py_eq_str_refl.
intros H; apply elem_of_cons in H as [->|H]; [|exact (Hrest _ H)].
exists f, s, d; eexists _, _; split; [left | auto].
Qed.

End AfterRunFacts.

(** * The claims of the specification *)

Section Claims.

Variable json_loads : string → option json.
Variable json_dumps : json → string.
Variable epoch : nat → Z.

Local Abbreviation decode := (View.decode json_loads).
Local Abbreviation records_ok := (View.records_ok json_loads).
Local Abbreviation rewrite_record := (View.rewrite_record json_loads json_dumps).
Local Abbreviation reassigned_text := (View.reassigned_text json_loads json_dumps).
Local Abbreviation hset_of := (View.hset_of json_loads json_dumps).
Local Abbreviation changed := (View.changed json_loads).
Local Abbreviation owned := (View.owned json_loads).
Local Abbreviation entries := (View.entries json_loads epoch).
Local Abbreviation after_run := (View.after_run json_loads json_dumps epoch).
Local Abbreviation main := (Script.main json_loads json_dumps epoch).

(** C3: when the lookup of the nest gives nothing, or gives the text
    [(nil)], the run ends with exit status 1 and has written nothing: the
    database is the one it started with and no writing command ran. *)
Theorem nest_not_found_exits w :
  lookup_nest (db w) = EmptyString ∨ lookup_nest (db w) = "(nil)" →
  ∃ w', main w = (Raise (SystemExit 1), w')
        ∧ exit_code (fst (main w)) = 1%Z
        ∧ db w' = db w
        ∧ writes w' = writes w.
Proof.
intros H; eexists; rewrite main_not_found.
- repeat split.
- destruct H as [-> | ->]; reflexivity.
Qed.

Lemma id_of_service_obj f nest d t1 t2 :
  field (Script.service_obj f nest d t1 t2) "id" = Some (JStr f).
Proof. reflexivity. Qed.

Lemma entry_ids l (h : list (string * string)) nest :
  Forall2 (λ e fs, ∃ d t1 t2, decode (snd fs) = Some (JDict d)
                     ∧ e = Script.service_obj (fst fs) nest d t1 t2) l h →
  map (λ e, field e "id") l = map (λ f, Some (JStr f)) (map fst h).
Proof.
induction 1 as [|e fs l h (d & t1 & t2 & _ & ->) _ IH]; [reflexivity|].
cbn [map]; rewrite IH; reflexivity.
Qed.

Lemma NoDup_ids (fields : list string) :
  NoDup fields → NoDup (map (λ f, Some (JStr f)) fields).
Proof.
assert (Hinj : Inj (=) (=) (λ f : string, Some (JStr f)))
  by (intros x y [=]; assumption).
apply (NoDup_fmap_2 (λ f, Some (JStr f))).
Qed.

Lemma hset_of_head nest h :
  Forall (λ c, head c = Some "hset") (omap (hset_of nest) h).
Proof.
apply Forall_forall; intros c Hc.
apply list_elem_of_omap in Hc as (fs & _ & Hc); unfold View.hset_of in Hc.
destruct (decode (snd fs)) as [[| | | | |d]|]; try discriminate.
injection Hc as <-; reflexivity.
Qed.

(** C10: a text that decodes to something else than an object makes the
    first loop raise [AttributeError], which nothing catches: the run ends
    there with exit status 1.  The records before it are rewritten, that
    record and those after it keep their text, nothing is printed for the
    record (no parse error is reported), and the list of the nest is not
    written. *)
Theorem non_object_aborts nest w h1 f s v h2 :
  store_ok (db w) = true →
  lookup_nest (db w) = nest → resolved nest = true →
  services (db w) = h1 ++ (f, s) :: h2 →
  forallb (λ fs, View.is_record json_loads (snd fs)) h1 = true →
  decode s = Some v → (∀ d, v ≠ JDict d) →
  ∃ w',
    main w = (Raise AttributeError, w')
    ∧ exit_code (fst (main w)) = 1%Z
    ∧ services (db w') = map (rewrite_record nest) h1 ++ (f, s) :: h2
    ∧ db w' !! Script.nest_services_key nest
      = db w !! Script.nest_services_key nest
    ∧ (∃ hsets, writes w' = writes w ++ hsets
                ∧ Forall (λ c, head c = Some "hset") hsets
                ∧ ∀ c x, c ∈ hsets → c ≠ ["hset"; services_key; f; x])
    ∧ stdout w'
      = stdout w
        ++ [LBanner; LBlank; LFound nest; LBlank;
            LFoundServices (length (services (db w))); LBlank]
        ++ flat_map (View.lines_reassign json_loads nest) h1.
Proof.
intros Hok Hnest Hres Hsv Hrec Hd Hv.
assert (Hs : View.is_record json_loads s = false).
{ unfold View.is_record; rewrite Hd.
  destruct v; try reflexivity; destruct (Hv d); reflexivity. }
pose proof (main_abort json_loads json_dumps epoch nest w h1 f s h2
              Hok Hsv Hrec Hs Hnest Hres) as Hmain.
eexists; split; [exact Hmain|]; rewrite Hmain; cbn [fst exit_code db writes stdout].
repeat split.
- unfold services; rewrite lookup_insert_eq; reflexivity.
- apply lookup_insert_ne; intros E.
  exact (nest_services_key_not_services nest (eq_sym E)).
- eexists; split; [reflexivity|]; split; [apply hset_of_head|].
  intros c x Hc ->.
  apply list_elem_of_omap in Hc as ([f0 s0] & Hin0 & Hc).
  unfold View.hset_of in Hc; cbn [fst snd] in Hc.
  destruct (decode s0) as [[| | | | |d]|]; try discriminate.
  injection Hc as -> _.
  pose proof (proj1 (store_ok_fields _ Hok)) as Hnd; rewrite Hsv in Hnd.
  apply (NoDup_fresh_head h1 (f, s) h2 Hnd); cbn [fst].
  apply (list_elem_of_fmap_2 fst _ _ Hin0).
Qed.

Lemma record_is_dict w f s v :
  records_ok (db w) = true → (f, s) ∈ services (db w) →
  decode s = Some v → ∃ d, v = JDict d.
Proof.
unfold View.records_ok; rewrite forallb_forall; intros Hrec Hin Hd.
specialize (Hrec (f, s) (proj1 (list_elem_of_In _ _) Hin)).
unfold View.is_record in Hrec; cbn [snd] in Hrec; rewrite Hd in Hrec.
destruct v; try discriminate; eauto.
Qed.

Lemma field_value_unique (h : list (string * string)) f s s' :
  NoDup (map fst h) → (f, s) ∈ h → (f, s') ∈ h → s = s'.
Proof.
intros Hnd H H'; apply (hget_elem_of h f s Hnd) in H.
apply (hget_elem_of h f s' Hnd) in H'; congruence.
Qed.

(** The writes of the first loop go one to one with the records that
    decode. *)
Lemma hsets_Forall2 nest h :
  forallb (λ fs, View.is_record json_loads (snd fs)) h = true →
  Forall2 (λ c fs, ∃ d, decode (snd fs) = Some (JDict d)
             ∧ c = ["hset"; services_key; fst fs;
                    json_dumps (JDict (PyDict.setitem d "nestId" (JStr nest)))])
          (omap (hset_of nest) h)
          (filter (λ fs, is_Some (decode (snd fs))) h).
Proof.
induction h as [|fs h IH]; [constructor|]; cbn [forallb omap list_omap].
rewrite andb_true_iff; intros [Hfs Hh]; rewrite filter_cons.
unfold View.is_record in Hfs; unfold View.hset_of at 1.
destruct (decode (snd fs)) as [[| | | | |d]|] eqn:Hd; try discriminate.
- rewrite decide_True by eauto; constructor; [eauto | exact (IH Hh)].
- rewrite decide_False by (intros [v Hv]; discriminate); exact (IH Hh).
Qed.

Hypothesis loads_wf : ∀ s v, json_loads s = Some v → wf_json v = true.
Hypothesis loads_dumps : ∀ v, wf_json v = true → json_loads (json_dumps v) = Some v.
Hypothesis dumps_strip : ∀ v, PyStr.strip (json_dumps v) = json_dumps v.

Local Abbreviation main_spec :=
  (main_spec json_loads json_dumps epoch loads_wf loads_dumps dumps_strip).

(** C1, as the code has it: the ids of the two loops are the words of the
    reply to [hkeys], so the claim needs a hash whose fields are one word
    each ([store_ok]); a run ends normally when moreover the nest is found
    and every text that decodes is an object ([records_ok]).  Then the
    text stored under [nest:<id>:services] is the dump of a list with one
    entry for each field of the hash whose record the nest owns, in the
    order of the hash: no entry twice, none for another owner.  The text
    replaces whatever the key held, and the run writes it with one [set],
    the last of its writes, however many records there are. *)
Theorem cached_list_rebuilt nest w :
  store_ok (db w) = true → records_ok (db w) = true →
  lookup_nest (db w) = nest → resolved nest = true →
  ∃ count services_list w',
    main w = (Ret (count, services_list), w')
    ∧ db w' !! Script.nest_services_key nest
      = Some (RString (json_dumps (JList services_list)))
    ∧ Forall2 (λ e fs, ∃ d t1 t2, decode (snd fs) = Some (JDict d)
                         ∧ e = Script.service_obj (fst fs) nest d t1 t2)
              services_list (filter (owned nest) (services (db w')))
    ∧ NoDup (map (λ e, field e "id") services_list)
    ∧ ∃ hsets,
        writes w'
        = writes w ++ hsets
          ++ [["set"; Script.nest_services_key nest;
               json_dumps (JList services_list)]]
        ∧ Forall (λ c, head c = Some "hset") hsets.
Proof.
intros Hok Hrec Hnest Hres.
eexists _, _, _; split; [exact (main_spec nest w Hok Hrec Hnest Hres)|].
rewrite (services_after_run json_loads json_dumps epoch).
pose proof (entries_Forall2 json_loads epoch nest
              (map (rewrite_record nest) (services (db w))) (clock w)) as HF.
repeat split.
- unfold View.after_run; cbn [db]; apply lookup_insert_eq.
- exact HF.
- rewrite (entry_ids _ _ _ HF); apply NoDup_ids.
  eapply sublist_NoDup; [|apply (fmap_sublist fst), sublist_filter].
  change (NoDup (map fst (map (rewrite_record nest) (services (db w))))).
  rewrite (fields_rewrite_record json_loads json_dumps).
  apply store_ok_fields, Hok.
- eexists; split; [reflexivity | apply hset_of_head].
Qed.

Local Abbreviation decode_reassigned :=
  (decode_reassigned json_loads json_dumps loads_wf loads_dumps dumps_strip).

Lemma hget_after_run nest w f s :
  store_ok (db w) = true → (f, s) ∈ services (db w) →
  Redis.hget (services (db (after_run nest w))) f
  = Some (reassigned_text nest s).
Proof.
intros Hok Hin; rewrite (services_after_run json_loads json_dumps epoch).
rewrite (hget_rewritten json_loads json_dumps).
rewrite (hget_elem_of _ f s (proj1 (store_ok_fields _ Hok)) Hin); reflexivity.
Qed.

(** C2, as the code has it: on a hash whose fields are one word each
    ([store_ok]) and whose texts decode to objects when they decode at all
    ([records_ok]), with the nest found, the run ends normally and every
    record whose text decodes holds the dump of its object with [nestId]
    set to the nest id, and that text decodes to an object whose [nestId]
    is the nest id.  The first loop writes each of these records once,
    with one [hset] on its own field, in the order of the hash and
    whatever [nestId] was before; it writes nothing else into the hash. *)
Theorem records_reassigned nest w :
  store_ok (db w) = true → records_ok (db w) = true →
  lookup_nest (db w) = nest → resolved nest = true →
  ∃ r w',
    main w = (Ret r, w')
    ∧ (∀ f s v, (f, s) ∈ services (db w) → decode s = Some v →
         ∃ d, v = JDict d
           ∧ Redis.hget (services (db w')) f
             = Some (json_dumps (JDict (PyDict.setitem d "nestId" (JStr nest))))
           ∧ decode (json_dumps (JDict (PyDict.setitem d "nestId" (JStr nest))))
             = Some (JDict (PyDict.setitem d "nestId" (JStr nest)))
           ∧ PyDict.lookup (PyDict.setitem d "nestId" (JStr nest)) "nestId"
             = Some (JStr nest))
    ∧ ∃ hsets rest,
        writes w' = writes w ++ hsets ++ rest
        ∧ Forall (λ c, head c ≠ Some "hset") rest
        ∧ Forall2 (λ c fs, ∃ d, decode (snd fs) = Some (JDict d)
                     ∧ c = ["hset"; services_key; fst fs;
                            json_dumps
                              (JDict (PyDict.setitem d "nestId" (JStr nest)))])
                  hsets
                  (filter (λ fs, is_Some (decode (snd fs))) (services (db w))).
Proof.
intros Hok Hrec Hnest Hres.
eexists _, _; split; [exact (main_spec nest w Hok Hrec Hnest Hres)|]; split.
- intros f s v Hin Hd.
  destruct (record_is_dict w f s v Hrec Hin Hd) as [d ->]; exists d.
  pose proof (decode_reassigned nest s d Hd) as Hd'.
  rewrite (hget_after_run nest w f s Hok Hin).
  unfold View.reassigned_text in Hd' |- *; rewrite Hd in Hd' |- *.
  repeat split; [exact Hd' | apply lookup_setitem_eq].
- eexists _, _; split; [reflexivity|]; split.
  + repeat constructor; discriminate.
  + apply hsets_Forall2, Hrec.
Qed.

(** C4: a record whose text does not decode is left alone by both loops:
    its field keeps its text, no [hset] is made on it, the rebuilt list
    has no entry with its id.  Every record that does decode is rewritten
    and listed all the same, and the exit status is 0. *)
Theorem malformed_record_skipped nest w f s :
  store_ok (db w) = true → records_ok (db w) = true →
  lookup_nest (db w) = nest → resolved nest = true →
  (f, s) ∈ services (db w) → decode s = None →
  ∃ count services_list w',
    main w = (Ret (count, services_list), w')
    ∧ exit_code (fst (main w)) = 0%Z
    ∧ Redis.hget (services (db w')) f = Some s
    ∧ (∃ new, writes w' = writes w ++ new
              ∧ ∀ c v, c ∈ new → c ≠ ["hset"; services_key; f; v])
    ∧ (∀ e, e ∈ services_list → field e "id" ≠ Some (JStr f))
    ∧ (∀ f' s' d, (f', s') ∈ services (db w) → decode s' = Some (JDict d) →
         Redis.hget (services (db w')) f'
         = Some (json_dumps (JDict (PyDict.setitem d "nestId" (JStr nest))))
         ∧ ∃ e, e ∈ services_list ∧ field e "id" = Some (JStr f')).
Proof.
intros Hok Hrec Hnest Hres Hin Hd.
pose proof (main_spec nest w Hok Hrec Hnest Hres) as Hmain.
pose proof (proj1 (store_ok_fields _ Hok)) as Hnd.
eexists _, _, _; split; [exact Hmain|]; rewrite Hmain.
split; [reflexivity|]; split; [|split; [|split]].
- rewrite (hget_after_run nest w f s Hok Hin).
  unfold View.reassigned_text; rewrite Hd; reflexivity.
- eexists; split; [reflexivity|]; intros c v Hc ->.
  apply elem_of_app in Hc as [Hc|Hc].
  + apply list_elem_of_omap in Hc as ([f0 s0] & Hin0 & Hc).
    unfold View.hset_of in Hc; cbn [fst snd] in Hc.
    destruct (decode s0) as [[| | | | |d]|] eqn:Hd0; try discriminate.
    injection Hc as -> _.
    rewrite (field_value_unique _ f s s0 Hnd Hin Hin0) in Hd; congruence.
  + apply list_elem_of_singleton in Hc; discriminate.
- intros e He Hid.
  apply (entries_rewritten_from json_loads json_dumps epoch loads_wf
           loads_dumps dumps_strip) in He
    as (f0 & s0 & d & t1 & t2 & Hin0 & Hd0 & ->).
  rewrite id_of_service_obj in Hid; injection Hid as ->.
  rewrite (field_value_unique _ f s s0 Hnd Hin Hin0) in Hd; congruence.
- intros f' s' d Hin' Hd'; split.
  + rewrite (hget_after_run nest w f' s' Hok Hin').
    unfold View.reassigned_text; rewrite Hd'; reflexivity.
  + destruct (entries_rewritten_in json_loads json_dumps epoch loads_wf
                loads_dumps dumps_strip nest _ f' s' d Hin' Hd' (clock w))
      as (t1 & t2 & He).
    eexists; split; [exact He | reflexivity].
Qed.

Lemma get_reassigned_other d nest k x :
  k ≠ "nestId" →
  PyDict.get (View.reassigned d nest) k x = PyDict.get d k x.
Proof.
intros Hk; unfold PyDict.get, View.reassigned.
rewrite lookup_setitem_ne by exact Hk; reflexivity.
Qed.

(** C6: the count that the run reports is the number of records that
    decode and whose [nestId] was not the nest id before; every record
    that decodes is owned by the nest afterwards, whether it counted or
    not, and the rebuilt list has one entry for each of them. *)
Theorem reassigned_count_reported nest w :
  store_ok (db w) = true → records_ok (db w) = true →
  lookup_nest (db w) = nest → resolved nest = true →
  ∃ count services_list w',
    main w = (Ret (count, services_list), w')
    ∧ count = length (filter (changed nest) (services (db w)))
    ∧ (∀ fs, changed nest fs = true
             ↔ ∃ d, decode (snd fs) = Some (JDict d)
                    ∧ PyDict.lookup d "nestId" ≠ Some (JStr nest))
    ∧ (∃ before after,
         stdout w' = stdout w ++ before ++ LReassignedCount count :: after)
    ∧ (∀ f s, (f, s) ∈ services (db w) → is_Some (decode s) →
         ∃ s' d', Redis.hget (services (db w')) f = Some s'
                  ∧ decode s' = Some (JDict d')
                  ∧ PyDict.lookup d' "nestId" = Some (JStr nest))
    ∧ length services_list
      = length (filter (λ fs, is_Some (decode (snd fs))) (services (db w))).
Proof.
intros Hok Hrec Hnest Hres.
eexists _, _, _; split; [exact (main_spec nest w Hok Hrec Hnest Hres)|].
split; [reflexivity|]; split; [apply changed_spec|]; split; [|split].
- unfold View.after_run; cbn [stdout].
  exists ([LBanner; LBlank; LFound nest; LBlank;
           LFoundServices (length (services (db w))); LBlank]
          ++ flat_map (View.lines_reassign json_loads nest) (services (db w))).
  eexists; rewrite <- (app_assoc [LBanner; LBlank; LFound nest; LBlank;
                                  LFoundServices (length (services (db w)));
                                  LBlank]).
  reflexivity.
- intros f s Hin [v Hd].
  destruct (record_is_dict w f s v Hrec Hin Hd) as [d ->].
  eexists _, _; rewrite (hget_after_run nest w f s Hok Hin).
  split; [reflexivity|]; split; [exact (decode_reassigned nest s d Hd)|].
  apply lookup_setitem_eq.
- rewrite (entries_length json_loads epoch).
  rewrite (filter_owned_rewritten json_loads json_dumps loads_wf loads_dumps
             dumps_strip) by exact Hrec.
  apply length_map.
Qed.

(** C7: the text written back for a record that decodes to an object is
    the dump of an object with the same fields: every key other than
    [nestId] is there as before, in the same order and with the same
    value; [nestId] alone is set. *)
Theorem other_fields_kept nest w f s d :
  store_ok (db w) = true → records_ok (db w) = true →
  lookup_nest (db w) = nest → resolved nest = true →
  (f, s) ∈ services (db w) → decode s = Some (JDict d) →
  ∃ r w' d',
    main w = (Ret r, w')
    ∧ Redis.hget (services (db w')) f = Some (json_dumps (JDict d'))
    ∧ decode (json_dumps (JDict d')) = Some (JDict d')
    ∧ (∀ k, k ≠ "nestId" → PyDict.lookup d' k = PyDict.lookup d k)
    ∧ filter (λ k, k ≠ "nestId") (PyDict.keys d')
      = filter (λ k, k ≠ "nestId") (PyDict.keys d)
    ∧ PyDict.lookup d' "nestId" = Some (JStr nest).
Proof.
intros Hok Hrec Hnest Hres Hin Hd.
pose proof (decode_reassigned nest s d Hd) as Hd'.
exists (length (filter (changed nest) (services (db w))),
        entries nest (map (rewrite_record nest) (services (db w))) (clock w)),
       (after_run nest w), (PyDict.setitem d "nestId" (JStr nest)).
split; [exact (main_spec nest w Hok Hrec Hnest Hres)|].
rewrite (hget_after_run nest w f s Hok Hin).
unfold View.reassigned_text in Hd' |- *; rewrite Hd in Hd' |- *.
repeat split.
- exact Hd'.
- intros k Hk; apply lookup_setitem_ne, Hk.
- rewrite keys_setitem; case_bool_decide; [reflexivity|].
  rewrite filter_app, (filter_cons _ "nestId"), decide_False by auto.
  apply app_nil_r.
- apply lookup_setitem_eq.
Qed.

(** C8, as the code has it: in the entry built for a record, [interval] is
    60 when the record has none; [monitoring] is the object with the three
    regions, the strategy [round-robin], [minRegions] 1 and [maxRegions] 3
    when the record has no [monitoring] at all, and the record's own
    [monitoring] as it is when it has one, whatever that holds or lacks;
    [isActive] is the record's [enabled], true when it has none, and
    [lastCheck] is the record's, null when it has none. *)
Theorem entry_defaults nest w f s d :
  store_ok (db w) = true → records_ok (db w) = true →
  lookup_nest (db w) = nest → resolved nest = true →
  (f, s) ∈ services (db w) → decode s = Some (JDict d) →
  ∃ count services_list w' e,
    main w = (Ret (count, services_list), w')
    ∧ e ∈ services_list
    ∧ field e "id" = Some (JStr f)
    ∧ (PyDict.lookup d "interval" = None →
       field e "interval" = Some (JInt 60))
    ∧ (PyDict.lookup d "monitoring" = None →
       field e "monitoring"
       = Some (JDict [("regions",
                       JList [JStr "eu-central-1"; JStr "eu-west-1";
                              JStr "us-east-1"]);
                      ("strategy", JStr "round-robin");
                      ("minRegions", JInt 1);
                      ("maxRegions", JInt 3)]))
    ∧ (∀ m, PyDict.lookup d "monitoring" = Some m →
         field e "monitoring" = Some m)
    ∧ field e "isActive" = Some (PyDict.get d "enabled" (JBool true))
    ∧ field e "lastCheck" = Some (PyDict.get d "lastCheck" JNull).
Proof.
intros Hok Hrec Hnest Hres Hin Hd.
destruct (entries_rewritten_in json_loads json_dumps epoch loads_wf
            loads_dumps dumps_strip nest _ f s d Hin Hd (clock w))
  as (t1 & t2 & He).
eexists _, _, _, _; split; [exact (main_spec nest w Hok Hrec Hnest Hres)|].
split; [exact He|]; cbn [field Script.service_obj PyDict.lookup String.eqb
                         Ascii.eqb Bool.eqb].
rewrite !get_reassigned_other by discriminate.
unfold PyDict.get; repeat split.
- intros ->; reflexivity.
- intros ->; reflexivity.
- intros m ->; reflexivity.
Qed.






End Claims.

(** * The claims on the stores of [Scenario] *)

Section Runs.
Import Scenario.

Local Abbreviation decode := (View.decode RefJson.loads).

Lemma svc_a_decodes :
  decode (RefJson.dumps svc_a) = Some svc_a.
Proof. vm_compute; reflexivity. Qed.

Lemma svc_b_decodes :
  decode (RefJson.dumps svc_b) = Some svc_b.
Proof. vm_compute; reflexivity. Qed.

Lemma svc_a_stored : ("svc-a", RefJson.dumps svc_a) ∈ services two_services.
Proof. left. Qed.

Lemma svc_b_stored : ("svc-b", RefJson.dumps svc_b) ∈ services two_services.
Proof. right; left. Qed.

(** The list of the nest after a run on the two records. *)
Lemma cached_list_rebuilt_witness :
  ∃ count services_list w',
    main (start two_services) = (Ret (count, services_list), w')
    ∧ db w' !! "nest:acct-target:services"
      = Some (RString (RefJson.dumps (JList services_list)))
    ∧ NoDup (map (λ e, field e "id") services_list).
Proof.
destruct (cached_list_rebuilt RefJson.loads RefJson.dumps ticking
            ref_loads_wf ref_loads_dumps ref_dumps_strip
            "acct-target" (start two_services))
  as (count & l & w' & Hmain & Hdb & _ & Hnd & _);
  [vm_compute; reflexivity..|].
exists count, l, w'; repeat split; assumption.
Defined.

(** C1 fails as it is stated: the run on a hash with the fields [svc-b x]
    and [svc-b] ends normally; its ids are [svc-b], [x] and [svc-b], so
    the list has two entries for [svc-b] and none for [svc-b x], a record
    of the nest. *)
Lemma split_field_listed_twice :
  ∃ count e1 e2 w',
    main (start with_split_field) = (Ret (count, [e1; e2]), w')
    ∧ field e1 "id" = Some (JStr "svc-b")
    ∧ field e2 "id" = Some (JStr "svc-b")
    ∧ ¬ NoDup (map (λ e, field e "id") [e1; e2])
    ∧ db w' !! "nest:acct-target:services"
      = Some (RString (RefJson.dumps (JList [e1; e2])))
    ∧ filter (View.owned RefJson.loads "acct-target") (services (db w'))
      = [("svc-b x", RefJson.dumps svc_b); ("svc-b", RefJson.dumps svc_b)].
Proof.
eexists _, _, _, _; split; [vm_compute; reflexivity|].
split; [reflexivity|]; split; [reflexivity|]; split.
- intros Hnd; apply NoDup_cons in Hnd as [Hnotin _].
  apply Hnotin; left.
- split; vm_compute; reflexivity.
Qed.

Lemma records_reassigned_witness :
  ∃ r w',
    main (start two_services) = (Ret r, w')
    ∧ ∃ s', Redis.hget (services (db w')) "svc-a" = Some s'
            ∧ ∃ d', decode s' = Some (JDict d')
                    ∧ PyDict.lookup d' "nestId" = Some (JStr "acct-target").
Proof.
destruct (records_reassigned RefJson.loads RefJson.dumps ticking
            ref_loads_wf ref_loads_dumps ref_dumps_strip
            "acct-target" (start two_services))
  as (r & w' & Hmain & Hall & _); [vm_compute; reflexivity..|].
destruct (Hall _ _ _ svc_a_stored svc_a_decodes) as (d & _ & Hget & Hd & Hl).
exists r, w'; split; [exact Hmain|]; eauto.
Defined.

(** C2 fails as it is stated: [svc-l] holds a list, which is JSON, and the
    run ends on it with [AttributeError] before any write; the record
    [svc-a] after it decodes and is still of [acct-old] when the run is
    over. *)
Lemma later_record_not_reassigned :
  ∃ w',
    main (start list_first) = (Raise AttributeError, w')
    ∧ lookup_nest list_first = "acct-target"
    ∧ writes w' = []
    ∧ decode "[1, 2]" = Some (JList [JInt 1; JInt 2])
    ∧ Redis.hget (services (db w')) "svc-a" = Some (RefJson.dumps svc_a)
    ∧ decode (RefJson.dumps svc_a) = Some svc_a
    ∧ field svc_a "nestId" = Some (JStr "acct-old").
Proof.
eexists; split; [vm_compute; reflexivity|].
repeat split; vm_compute; reflexivity.
Qed.

Lemma nest_not_found_exits_witness :
  ∃ w', main (start no_nest) = (Raise (SystemExit 1), w')
        ∧ db w' = no_nest ∧ writes w' = [].
Proof.
destruct (nest_not_found_exits RefJson.loads RefJson.dumps ticking
            (start no_nest)) as (w' & Hmain & _ & Hdb & Hw);
  [left; vm_compute; reflexivity|].
exists w'; repeat split; assumption.
Defined.

Lemma malformed_record_skipped_witness :
  ∃ count services_list w',
    main (start with_malformed) = (Ret (count, services_list), w')
    ∧ Redis.hget (services (db w')) "svc-c" = Some "{oops"
    ∧ ∀ e, e ∈ services_list → field e "id" ≠ Some (JStr "svc-c").
Proof.
destruct (malformed_record_skipped RefJson.loads RefJson.dumps ticking
            ref_loads_wf ref_loads_dumps ref_dumps_strip
            "acct-target" (start with_malformed) "svc-c" "{oops")
  as (count & l & w' & Hmain & _ & Hget & _ & Hl & _);
  [vm_compute; reflexivity.. | right; left | vm_compute; reflexivity |].
exists count, l, w'; repeat split; assumption.
Defined.

(** The two records of the specification's scenario: one changes hands,
    the count is 1, both are in the list. *)
Lemma reassigned_count_reported_witness :
  ∃ services_list w',
    main (start two_services) = (Ret (1, services_list), w')
    ∧ length services_list = 2.
Proof.
destruct (reassigned_count_reported RefJson.loads RefJson.dumps ticking
            ref_loads_wf ref_loads_dumps ref_dumps_strip
            "acct-target" (start two_services))
  as (count & l & w' & Hmain & Hcount & _ & _ & _ & Hlen);
  [vm_compute; reflexivity..|].
exists l, w'; split.
- unfold main; rewrite Hmain, Hcount; reflexivity.
- rewrite Hlen; reflexivity.
Defined.

Lemma other_fields_kept_witness :
  ∃ r w' d',
    main (start two_services) = (Ret r, w')
    ∧ Redis.hget (services (db w')) "svc-a" = Some (RefJson.dumps (JDict d'))
    ∧ PyDict.lookup d' "name" = Some (JStr "api")
    ∧ PyDict.lookup d' "interval" = Some (JInt 30).
Proof.
destruct (other_fields_kept RefJson.loads RefJson.dumps ticking
            ref_loads_wf ref_loads_dumps ref_dumps_strip
            "acct-target" (start two_services) "svc-a" (RefJson.dumps svc_a)
            [("name", JStr "api"); ("type", JStr "http");
             ("target", JStr "https://a.example"); ("nestId", JStr "acct-old");
             ("interval", JInt 30); ("createdAt", JInt 1690000000000)])
  as (r & w' & d' & Hmain & Hget & _ & Hsame & _);
  [vm_compute; reflexivity.. | exact svc_a_stored | exact svc_a_decodes |].
exists r, w', d'; split; [exact Hmain|]; split; [exact Hget|].
split; (rewrite Hsame by discriminate; reflexivity).
Defined.

Lemma entry_defaults_witness :
  ∃ count services_list w' e,
    main (start two_services) = (Ret (count, services_list), w')
    ∧ e ∈ services_list
    ∧ field e "id" = Some (JStr "svc-b")
    ∧ field e "interval" = Some (JInt 60)
    ∧ field e "monitoring" = Some Script.default_monitoring
    ∧ field e "isActive" = Some (JBool false)
    ∧ field e "lastCheck" = Some JNull.
Proof.
destruct (entry_defaults RefJson.loads RefJson.dumps ticking
            ref_loads_wf ref_loads_dumps ref_dumps_strip
            "acct-target" (start two_services) "svc-b" (RefJson.dumps svc_b)
            [("nestId", JStr "acct-target"); ("enabled", JBool false)])
  as (count & l & w' & e & Hmain & He & Hid & Hint & Hmon & _ & Hact & Hlast);
  [vm_compute; reflexivity.. | exact svc_b_stored | exact svc_b_decodes |].
exists count, l, w', e; repeat split; auto.
Defined.

(** C8 fails as it is stated: the record [svc-m] has a [monitoring] with a
    strategy only; its entry has that object, with no regions and no
    bounds on their number. *)
Lemma partial_monitoring_kept :
  ∃ count e w' m,
    main (start with_partial_monitoring) = (Ret (count, [e]), w')
    ∧ decode (RefJson.dumps svc_m) = Some svc_m
    ∧ field svc_m "monitoring" = Some (JDict [("strategy", JStr "failover")])
    ∧ field e "id" = Some (JStr "svc-m")
    ∧ field e "monitoring" = Some m
    ∧ field m "strategy" = Some (JStr "failover")
    ∧ field m "regions" = None
    ∧ field m "minRegions" = None
    ∧ field m "maxRegions" = None.
Proof.
eexists _, _, _, _; split; [vm_compute; reflexivity|].
split; [vm_compute; reflexivity|].
repeat split.
Qed.





Lemma non_object_aborts_witness :
  ∃ w',
    main (start with_list) = (Raise AttributeError, w')
    ∧ db w' !! "nest:acct-target:services" = None
    ∧ Redis.hget (services (db w')) "svc-l" = Some "[1, 2]"
    ∧ Redis.hget (services (db w')) "svc-b" = Some (RefJson.dumps svc_b).
Proof.
destruct (non_object_aborts RefJson.loads RefJson.dumps ticking
            "acct-target" (start with_list)
            [("svc-a", RefJson.dumps svc_a)] "svc-l" "[1, 2]"
            (JList [JInt 1; JInt 2]) [("svc-b", RefJson.dumps svc_b)])
  as (w' & Hmain & _ & Hsv & Hdb & _);
  [vm_compute; reflexivity.. | discriminate |].
exists w'; split; [exact Hmain|]; split; [exact (eq_trans Hdb eq_refl)|].
rewrite Hsv; split; vm_compute; reflexivity.
Defined.

End Runs.

(** * More about the script *)

(** ** [run_redis_command] *)

Section CommandFacts.
Import PyStr.

Lemma lstrip_head p s :
  lstrip p s = EmptyString ∨ ∃ c t, lstrip p s = String c t ∧ p c = false.
Proof.
induction s as [|c s IH]; [left; reflexivity|].
cbn [lstrip]; destruct (p c) eqn:Hc; [exact IH | right; eauto].
Qed.

Lemma rstrip_twice p s : rstrip p (rstrip p s) = rstrip p s.
Proof.
induction s as [|c s IH]; [reflexivity|]; cbn [rstrip].
destruct (rstrip p s) as [|b r] eqn:Hr.
- destruct (p c) eqn:Hc; [reflexivity|]; cbn [rstrip]; rewrite Hc; reflexivity.
- cbn [rstrip] in IH |- *; rewrite IH; reflexivity.
Qed.

Lemma rstrip_keeps_head p c s :
  p c = false → ∃ t, rstrip p (String c s) = String c t.
Proof.
intros Hc; cbn [rstrip]; destruct (rstrip p s); [rewrite Hc|]; eauto.
Qed.

Lemma strip_chars_twice p s :
  strip_chars p (strip_chars p s) = strip_chars p s.
Proof.
unfold strip_chars.
destruct (lstrip_head p s) as [-> | (c & t & -> & Hc)]; [reflexivity|].
destruct (rstrip_keeps_head p c t Hc) as [t' Ht]; rewrite Ht.
cbn [lstrip]; rewrite Hc, <- Ht; apply rstrip_twice.
Qed.

(** X1: whatever the command and the store, the text that
    [run_redis_command] returns has no space at either end: stripping it
    again changes nothing. *)
Theorem run_redis_command_stripped command w out w' :
  Script.run_redis_command command w = (Ret out, w') → strip out = out.
Proof.
unfold Script.run_redis_command, mbind, M_bind, redis_cli.
destruct (match split command with
          | [] => split command
          | a :: rest =>
              if String.eqb a "-x" then (rest ++ [EmptyString])%list
              else split command
          end) as [|c l] eqn:E;
  destruct (Redis.exec _ (db w)) as [o d];
  intros [= <- _]; apply strip_chars_twice.
Qed.

Lemma run_redis_command_stripped_witness :
  ∃ out, strip out = out ∧ out = RefJson.dumps Scenario.svc_a.
Proof.
eexists; split; [|reflexivity].
apply (run_redis_command_stripped "hget scheduler:services svc-a"
         (Scenario.start Scenario.two_services) _
         (Scenario.start Scenario.two_services)).
vm_compute; reflexivity.
Defined.

End CommandFacts.

(** ** What a run leaves alone *)

Section FrameFacts.

Variable json_loads : string → option json.
Variable json_dumps : json → string.
Variable epoch : nat → Z.

Local Abbreviation reassign_one := (Script.reassign_one json_loads json_dumps).
Local Abbreviation reassign_loop := (Script.reassign_loop json_loads json_dumps).
Local Abbreviation collect_one := (Script.collect_one json_loads epoch).
Local Abbreviation collect_loop := (Script.collect_loop json_loads epoch).
Local Abbreviation main := (Script.main json_loads json_dumps epoch).

Lemma split_hget_any id :
  PyStr.split ("hget scheduler:services " +:+ id)
  = "hget" :: "scheduler:services" :: PyStr.split id.
Proof.
change ("hget scheduler:services " +:+ id)
  with ("hget" +:+ String " " ("scheduler:services" +:+ String " " id)).
rewrite split_word_then_space; [|apply is_token_spec; reflexivity|reflexivity].
rewrite split_word_then_space; [|apply is_token_spec; reflexivity|reflexivity].
reflexivity.
Qed.

Lemma run_hget_any id w :
  ∃ out,
    Script.run_redis_command ("hget scheduler:services " +:+ id) w
    = (Ret out, w).
Proof.
unfold Script.run_redis_command, mbind, M_bind, redis_cli.
rewrite split_hget_any.
destruct (PyStr.split id) as [|a [|b [|c l]]];
  cbn -[PyStr.strip]; fold services_key;
  try destruct (db w !! services_key) as [[v|h]|];
  cbn -[PyStr.strip]; rewrite world_eta; eauto.
Qed.

(** X2: reading a field changes nothing, whatever stands for the id: the
    command starts with the word [hget], so even an id with spaces in it,
    which makes more words, cannot turn it into a write. *)
Theorem hget_reads_only id w :
  ∃ out,
    Script.run_redis_command ("hget scheduler:services " +:+ id) w
    = (Ret out, w).
Proof. apply run_hget_any. Qed.

Lemma hkeys_reads_only w :
  ∃ out,
    Script.run_redis_command "hkeys scheduler:services" w = (Ret out, w).
Proof.
unfold Script.run_redis_command, mbind, M_bind, redis_cli.
change (PyStr.split "hkeys scheduler:services") with ["hkeys"; services_key].
cbn -[PyStr.strip services_key].
destruct (db w !! services_key) as [[v|h]|];
  cbn -[PyStr.strip]; rewrite world_eta; eauto.
Qed.

Lemma hget_hset_other h id v f :
  f ≠ id → Redis.hget (Redis.hset h id v) f = Redis.hget h f.
Proof.
intros Hf; induction h as [|[f' v'] h IH]; cbn.
- destruct (String.eqb_spec id f); [congruence | reflexivity].
- destruct (String.eqb_spec f' id) as [->|Hne]; cbn.
  + destruct (String.eqb_spec id f); [congruence | reflexivity].
  + rewrite IH; reflexivity.
Qed.

(** What one turn of the first loop can change: the field it is at. *)
Lemma reassign_one_frame nest id count w r w' :
  reassign_one nest id count w = (r, w') →
  (∀ k, k ≠ services_key → db w' !! k = db w !! k)
  ∧ (∀ f, f ≠ id →
       Redis.hget (services (db w')) f = Redis.hget (services (db w)) f)
  ∧ clock w' = clock w.
Proof.
unfold Script.reassign_one, mbind at 1, M_bind at 1.
destruct (run_hget_any id w) as [out ->].
destruct (json_loads out) as [[| | | | |d]|];
  try (intros [= <- <-]; auto).
unfold get_method, setitem, mbind, M_bind, mret, M_ret, print, redis_cli.
cbn [String.eqb Ascii.eqb Bool.eqb app db writes clock stdout Redis.exec
     Redis.is_write orb].
fold services_key; unfold services.
destruct (db w !! services_key) as [[v|h]|] eqn:E;
  intros [= <- <-]; cbn [db clock]; repeat split;
  try (intros k Hk; rewrite lookup_insert_ne by congruence; reflexivity);
  intros f Hf; rewrite ?lookup_insert_eq, ?E; [reflexivity | |].
- apply hget_hset_other, Hf.
- cbn; destruct (String.eqb_spec id f); [congruence | reflexivity].
Qed.

Lemma reassign_loop_frame nest ids : ∀ count w r w',
  reassign_loop nest ids count w = (r, w') →
  (∀ k, k ≠ services_key → db w' !! k = db w !! k)
  ∧ (∀ f, f ∉ ids →
       Redis.hget (services (db w')) f = Redis.hget (services (db w)) f)
  ∧ clock w' = clock w.
Proof.
induction ids as [|id ids IH]; intros count w r w'.
- intros [= <- <-]; auto.
- cbn [Script.reassign_loop]; unfold mbind, M_bind.
  destruct (reassign_one nest id count w) as [[c|e] w1] eqn:H1;
    apply reassign_one_frame in H1 as (Hk1 & Hf1 & Hc1).
  + intros H2; apply IH in H2 as (Hk2 & Hf2 & Hc2); repeat split.
    * intros k Hk; rewrite Hk2, Hk1 by exact Hk; reflexivity.
    * intros f Hf; apply not_elem_of_cons in Hf as [Hne Hf].
      rewrite Hf2, Hf1 by assumption; reflexivity.
    * congruence.
  + intros [= <- <-]; repeat split; [exact Hk1 | | exact Hc1].
    intros f Hf; apply not_elem_of_cons in Hf as [Hne Hf]; auto.
Qed.

(** One turn of the second loop writes nothing. *)
Lemma collect_one_frame nest id l w r w' :
  collect_one nest id l w = (r, w') → db w' = db w ∧ writes w' = writes w.
Proof.
unfold Script.collect_one, mbind at 1, M_bind at 1.
destruct (run_hget_any id w) as [out ->].
destruct (json_loads out) as [[| | | | |d]|];
  try (intros [= <- <-]; auto).
unfold get_method, mbind, M_bind, mret, M_ret.
destruct (py_eq_str (PyDict.get d "nestId" JNull) nest);
  intros [= <- <-]; auto.
Qed.

Lemma collect_loop_frame nest ids : ∀ l w r w',
  collect_loop nest ids l w = (r, w') → db w' = db w ∧ writes w' = writes w.
Proof.
induction ids as [|id ids IH]; intros l w r w'.
- intros [= <- <-]; auto.
- cbn [Script.collect_loop]; unfold mbind, M_bind.
  destruct (collect_one nest id l w) as [[c|e] w1] eqn:H1;
    apply collect_one_frame in H1 as (Hd1 & Hw1).
  + intros H2; apply IH in H2 as (Hd2 & Hw2); split; congruence.
  + intros [= <- <-]; auto.
Qed.

Lemma main_frame w r w' :
  main w = (r, w') →
  (∀ k, k ≠ services_key →
        k ≠ Script.nest_services_key (lookup_nest (db w)) →
        db w' !! k = db w !! k)
  ∧ (∀ f, ¬ PyStr.token f →
       Redis.hget (services (db w')) f = Redis.hget (services (db w)) f).
Proof.
unfold Script.main, mbind at 1 2, M_bind at 1 2, print at 1 2.
unfold mbind at 1, M_bind at 1; rewrite run_get; cbn [db writes clock stdout].
fold (lookup_nest (db w)).
destruct (String.eqb (lookup_nest (db w)) EmptyString
          || String.eqb (lookup_nest (db w)) "(nil)").
{ unfold mbind, M_bind, print, sys_exit, raise; intros [= <- <-]; auto. }
unfold mbind at 1 2, M_bind at 1 2, print at 1 2.
unfold mbind at 1, M_bind at 1.
match goal with
| |- context [Script.run_redis_command "hkeys scheduler:services" ?W] =>
    destruct (hkeys_reads_only W) as [out ->]
end.
pose proof (split_tokens out) as Htok.
unfold mbind at 1 2, M_bind at 1 2, print at 1 2.
unfold mbind at 1, M_bind at 1.
match goal with
| |- context [Script.reassign_loop _ _ _ _ _ ?W] =>
    destruct (reassign_loop (lookup_nest (db w)) (PyStr.split out) 0 W)
      as [[c|e] w1] eqn:H1;
    apply reassign_loop_frame in H1 as (Hk1 & Hf1 & _); cbn [db] in Hk1, Hf1
end.
2:{ intros [= <- <-]; split; [auto|].
    intros f Hf; apply Hf1; intros Hin.
    rewrite Forall_forall in Htok; exact (Hf (Htok f Hin)). }
unfold mbind at 1 2 3, M_bind at 1 2 3, print at 1 2 3.
unfold mbind at 1, M_bind at 1.
match goal with
| |- context [Script.collect_loop _ _ _ _ _ ?W] =>
    destruct (collect_loop (lookup_nest (db w)) (PyStr.split out) [] W)
      as [[l|e] w2] eqn:H2;
    apply collect_loop_frame in H2 as (Hd2 & _); cbn [db] in Hd2
end.
2:{ intros [= <- <-]; rewrite Hd2; split; [auto|].
    intros f Hf; apply Hf1; intros Hin.
    rewrite Forall_forall in Htok; exact (Hf (Htok f Hin)). }
unfold mbind, M_bind, print, mret, M_ret, redis_cli.
cbn -[Script.nest_services_key services_key].
intros [= <- <-]; cbn [db]; split.
- intros k Hs Hn; rewrite lookup_insert_ne, Hd2 by congruence; auto.
- intros f Hf.
  rewrite services_insert_other by apply nest_services_key_not_services.
  rewrite Hd2; apply Hf1; intros Hin.
  rewrite Forall_forall in Htok; exact (Hf (Htok f Hin)).
Qed.

(** X3: whatever the store holds and however the run ends, it changes no
    key of the database but the hash [scheduler:services] and the list of
    the nest it found. *)
Theorem main_touches_two_keys w r w' k :
  main w = (r, w') →
  k ≠ services_key →
  k ≠ Script.nest_services_key (lookup_nest (db w)) →
  db w' !! k = db w !! k.
Proof. intros H; apply (proj1 (main_frame w r w' H)). Qed.

(** X4: a field of the hash whose name is not one word (it is empty or has
    a space in it) is never rewritten: the ids that the script goes
    through are the words of the reply to [hkeys]. *)
Theorem unsplittable_field_untouched w r w' f :
  main w = (r, w') →
  ¬ PyStr.token f →
  Redis.hget (services (db w')) f = Redis.hget (services (db w)) f.
Proof. intros H; apply (proj2 (main_frame w r w' H)). Qed.

End FrameFacts.

Lemma main_touches_two_keys_witness :
  ∃ r w',
    Scenario.main (Scenario.start Scenario.two_services) = (Ret r, w')
    ∧ db w' !! "nest:email:moon.pl.kr@gmail.com"
      = Some (RString (Scenario.quoted "acct-target")).
Proof.
eexists _, _; split; [vm_compute; reflexivity|].
etransitivity;
  [eapply (main_touches_two_keys RefJson.loads RefJson.dumps Scenario.ticking
            (Scenario.start Scenario.two_services));
   [vm_compute; reflexivity | discriminate | vm_compute; discriminate]
  | reflexivity].
Defined.

Lemma unsplittable_field_untouched_witness :
  ∃ r w',
    Scenario.main (Scenario.start Scenario.with_spaced_field) = (Ret r, w')
    ∧ Redis.hget (services (db w')) "svc a"
      = Some (RefJson.dumps Scenario.svc_a).
Proof.
eexists _, _; split; [vm_compute; reflexivity|].
etransitivity;
  [eapply (unsplittable_field_untouched RefJson.loads RefJson.dumps
             Scenario.ticking (Scenario.start Scenario.with_spaced_field));
   [vm_compute; reflexivity | intros [_ H]; discriminate H]
  | reflexivity].
Defined.

(** ** How a run can end *)

Section OutcomeFacts.

Variable json_loads : string → option json.
Variable json_dumps : json → string.
Variable epoch : nat → Z.

Local Abbreviation decode := (View.decode json_loads).
Local Abbreviation is_record := (View.is_record json_loads).
Local Abbreviation records_ok := (View.records_ok json_loads).
Local Abbreviation reassign_one := (Script.reassign_one json_loads json_dumps).
Local Abbreviation reassign_loop := (Script.reassign_loop json_loads json_dumps).
Local Abbreviation collect_one := (Script.collect_one json_loads epoch).
Local Abbreviation collect_loop := (Script.collect_loop json_loads epoch).
Local Abbreviation main := (Script.main json_loads json_dumps epoch).

(** The stages of [main]: the lookup, the first loop, the second loop and
    the final [set], with the worlds in between. *)
Lemma main_stages w r w' :
  main w = (r, w') →
  (resolved (lookup_nest (db w)) = false
   ∧ r = Raise (SystemExit 1)
   ∧ db w' = db w ∧ clock w' = clock w ∧ writes w' = writes w)
  ∨ (resolved (lookup_nest (db w)) = true
     ∧ ∃ out wh w0 r1 w1,
         db wh = db w
         ∧ Script.run_redis_command "hkeys scheduler:services" wh
           = (Ret out, wh)
         ∧ db w0 = db w ∧ clock w0 = clock w ∧ writes w0 = writes w
         ∧ reassign_loop (lookup_nest (db w)) (PyStr.split out) 0 w0
           = (r1, w1)
         ∧ ((∃ e, r1 = Raise e ∧ r = Raise e ∧ w' = w1)
            ∨ ∃ c w1' r2 w2,
                r1 = Ret c
                ∧ db w1' = db w1 ∧ clock w1' = clock w1
                ∧ writes w1' = writes w1
                ∧ collect_loop (lookup_nest (db w)) (PyStr.split out) [] w1'
                  = (r2, w2)
                ∧ ((∃ e, r2 = Raise e ∧ r = Raise e ∧ w' = w2)
                   ∨ ∃ l,
                       r2 = Ret l ∧ r = Ret (c, l)
                       ∧ db w'
                         = <[Script.nest_services_key (lookup_nest (db w))
                             := RString (json_dumps (JList l))]> (db w2)
                       ∧ clock w' = clock w2
                       ∧ writes w'
                         = writes w2
                           ++ [["set";
                                Script.nest_services_key (lookup_nest (db w));
                                json_dumps (JList l)]]))).
Proof.
intros H; revert H.
unfold Script.main, mbind at 1 2, M_bind at 1 2, print at 1 2.
unfold mbind at 1, M_bind at 1; rewrite run_get; cbn [db writes clock stdout].
fold (lookup_nest (db w)); unfold resolved.
destruct (String.eqb (lookup_nest (db w)) EmptyString
          || String.eqb (lookup_nest (db w)) "(nil)").
{ unfold mbind, M_bind, print, sys_exit, raise; intros [= <- <-].
  left; auto. }
unfold mbind at 1 2, M_bind at 1 2, print at 1 2.
unfold mbind at 1, M_bind at 1.
match goal with
| |- context [Script.run_redis_command "hkeys scheduler:services" ?W] =>
    destruct (hkeys_reads_only W) as [out Hout]; rewrite Hout;
    set (wh := W) in *
end.
unfold mbind at 1 2, M_bind at 1 2, print at 1 2.
unfold mbind at 1, M_bind at 1.
match goal with
| |- context [Script.reassign_loop _ _ _ _ _ ?W] =>
    destruct (reassign_loop (lookup_nest (db w)) (PyStr.split out) 0 W)
      as [[c|e] w1] eqn:H1
end.
2:{ intros [= <- <-]; right; split; [reflexivity|].
    match type of H1 with
    | Script.reassign_loop _ _ _ _ _ ?W = _ => exists out, wh, W
    end; eexists _, _; split; [reflexivity|];
      split; [exact Hout|]; repeat split; [exact H1|].
    left; eauto. }
unfold mbind at 1 2 3, M_bind at 1 2 3, print at 1 2 3.
unfold mbind at 1, M_bind at 1.
match goal with
| |- context [Script.collect_loop _ _ _ _ _ ?W] =>
    destruct (collect_loop (lookup_nest (db w)) (PyStr.split out) [] W)
      as [[l|e] w2] eqn:H2
end.
2:{ intros [= <- <-]; right; split; [reflexivity|].
    match type of H1 with
    | Script.reassign_loop _ _ _ _ _ ?W = _ => exists out, wh, W
    end; eexists _, _; split; [reflexivity|];
      split; [exact Hout|]; repeat split; [exact H1|].
    right; match type of H2 with
    | Script.collect_loop _ _ _ _ _ ?W = _ => exists c, W
    end; eexists _, _; split; [reflexivity|].
    repeat split; [exact H2|]; left; eauto. }
unfold mbind, M_bind, print, mret, M_ret, redis_cli.
cbn -[Script.nest_services_key services_key].
intros [= <- <-]; right; split; [reflexivity|].
match type of H1 with
    | Script.reassign_loop _ _ _ _ _ ?W = _ => exists out, wh, W
    end; eexists _, _; split; [reflexivity|];
      split; [exact Hout|]; repeat split; [exact H1|].
right; match type of H2 with
    | Script.collect_loop _ _ _ _ _ ?W = _ => exists c, W
    end; eexists _, _; split; [reflexivity|].
repeat split; [exact H2|]; right; eexists; repeat split.
Qed.

Lemma fields_hset (h : list (string * string)) id v :
  id ∈ map fst h → map fst (Redis.hset h id v) = map fst h.
Proof.
induction h as [|[f' v'] h IH]; [inversion 1|]; cbn.
destruct (String.eqb_spec f' id) as [->|Hne]; [reflexivity|].
intros Hin; apply elem_of_cons in Hin as [->|Hin]; [congruence|].
cbn; rewrite IH by exact Hin; reflexivity.
Qed.

Lemma reassign_one_fields nest id count w r w' :
  id ∈ map fst (services (db w)) →
  reassign_one nest id count w = (r, w') →
  map fst (services (db w')) = map fst (services (db w)).
Proof.
intros Hin; unfold Script.reassign_one, mbind at 1, M_bind at 1.
destruct (run_hget_any id w) as [out ->].
destruct (json_loads out) as [[| | | | |d]|];
  try (intros [= <- <-]; reflexivity).
unfold get_method, setitem, mbind, M_bind, mret, M_ret, print, redis_cli.
cbn [String.eqb Ascii.eqb Bool.eqb app db writes clock stdout Redis.exec
     Redis.is_write orb].
fold services_key; revert Hin; unfold services.
destruct (db w !! services_key) as [[v|h]|] eqn:E;
  intros Hin [= <- <-]; cbn [db]; rewrite ?lookup_insert_eq, ?E;
  [reflexivity | apply fields_hset, Hin | inversion Hin].
Qed.

Lemma reassign_loop_fields nest ids : ∀ count w r w',
  Forall (λ id, id ∈ map fst (services (db w))) ids →
  reassign_loop nest ids count w = (r, w') →
  map fst (services (db w')) = map fst (services (db w)).
Proof.
induction ids as [|id ids IH]; intros count w r w' Hall.
- intros [= <- <-]; reflexivity.
- apply Forall_cons in Hall as [Hid Hall].
  cbn [Script.reassign_loop]; unfold mbind, M_bind.
  destruct (reassign_one nest id count w) as [[c|e] w1] eqn:H1;
    apply (reassign_one_fields _ _ _ _ _ _ Hid) in H1.
  + intros H2; apply IH in H2; [congruence|].
    rewrite H1; exact Hall.
  + intros [= <- <-]; exact H1.
Qed.

(** X5: on a store whose services are a hash with one-word fields, a run
    neither adds nor removes a service, however it ends: the hash has the
    same fields in the same order afterwards. *)
Theorem fields_preserved w r w' :
  store_ok (db w) = true →
  main w = (r, w') →
  map fst (services (db w')) = map fst (services (db w)).
Proof.
intros Hok Hmain.
destruct (store_ok_fields _ Hok) as [_ Htok].
apply main_stages in Hmain
  as [(_ & _ & -> & _) | (_ & out & wh & w0 & r1 & w1 & Hh & Hout & Hd0
                          & _ & _ & H1 & Hrest)]; [reflexivity|].
assert (Hokh : store_ok (db wh) = true) by (rewrite Hh; exact Hok).
rewrite (run_hkeys wh Hokh) in Hout; injection Hout as <-.
rewrite Hh, split_hkeys_reply in H1 by exact Htok.
apply reassign_loop_fields in H1;
  [|rewrite Hd0; apply Forall_forall; auto].
rewrite Hd0 in H1.
destruct Hrest as [(e & _ & _ & ->) | (c & w1' & r2 & w2 & _ & Hd1 & _ & _
                                      & H2 & Hrest)]; [exact H1|].
apply collect_loop_frame in H2 as [Hd2 _].
destruct Hrest as [(e & _ & _ & ->) | (l & _ & _ & -> & _)].
- rewrite Hd2, Hd1; exact H1.
- rewrite services_insert_other by apply nest_services_key_not_services.
  rewrite Hd2, Hd1; exact H1.
Qed.

Lemma collect_one_clock nest id l w l' w' :
  collect_one nest id l w = (Ret l', w') →
  ∃ new, l' = l ++ new ∧ clock w' = clock w + 2 * length new.
Proof.
unfold Script.collect_one, mbind at 1, M_bind at 1.
destruct (run_hget_any id w) as [out ->].
destruct (json_loads out) as [[| | | | |d]|];
  try discriminate;
  try (intros [= <- <-]; exists []; rewrite app_nil_r; cbn; split; auto; lia).
unfold get_method, mbind, M_bind, mret, M_ret.
destruct (py_eq_str (PyDict.get d "nestId" JNull) nest).
- unfold Script.date_ms, print; intros [= <- <-]; cbn [clock].
  eexists [_]; split; [reflexivity | cbn; lia].
- intros [= <- <-]; exists []; rewrite app_nil_r; cbn; split; auto; lia.
Qed.

Lemma collect_loop_clock nest ids : ∀ l w l' w',
  collect_loop nest ids l w = (Ret l', w') →
  ∃ new, l' = l ++ new ∧ clock w' = clock w + 2 * length new.
Proof.
induction ids as [|id ids IH]; intros l w l' w'.
- intros [= <- <-]; exists []; rewrite app_nil_r; cbn; split; auto; lia.
- cbn [Script.collect_loop]; unfold mbind, M_bind.
  destruct (collect_one nest id l w) as [[l1|e] w1] eqn:H1; [|discriminate].
  apply collect_one_clock in H1 as (n1 & -> & Hc1).
  intros H2; apply IH in H2 as (n2 & -> & Hc2).
  exists (n1 ++ n2); rewrite app_assoc, length_app; split; [reflexivity|lia].
Qed.

(** X6: a run that ends normally has read the clock exactly twice for
    each entry of the list it stored, whether or not the record had a
    [createdAt] of its own; the lookup and the first loop never read it. *)
Theorem clock_read_twice_per_entry w count services_list w' :
  main w = (Ret (count, services_list), w') →
  clock w' = clock w + 2 * length services_list.
Proof.
intros Hmain; apply main_stages in Hmain
  as [(_ & [=] & _) | (_ & out & wh & w0 & r1 & w1 & _ & _ & _ & Hc0 & _
                       & H1 & Hrest)].
apply reassign_loop_frame in H1 as (_ & _ & Hc1).
destruct Hrest as [(e & _ & [=] & _) | (c & w1' & r2 & w2 & _ & _ & Hc1' & _
                                        & H2 & Hrest)].
destruct Hrest as [(e & _ & [=] & _) | (l & -> & [= <- <-] & _ & -> & _)].
apply collect_loop_clock in H2 as (new & Hl & Hc2); cbn [app] in Hl.
subst new; lia.
Qed.

Lemma first_bad_record (h : list (string * string)) :
  forallb (λ fs, is_record (snd fs)) h = false →
  ∃ h1 f s h2, h = h1 ++ (f, s) :: h2
    ∧ forallb (λ fs, is_record (snd fs)) h1 = true
    ∧ is_record s = false.
Proof.
induction h as [|[f s] h IH]; [discriminate|]; cbn [forallb snd].
destruct (is_record s) eqn:Hs.
- rewrite andb_true_l; intros H.
  destruct (IH H) as (h1 & f' & s' & h2 & -> & Hh1 & Hs').
  exists ((f, s) :: h1), f', s', h2; repeat split; [|exact Hs'].
  cbn [forallb snd]; rewrite Hs, Hh1; reflexivity.
- intros _; exists [], f, s, h; auto.
Qed.

Hypothesis loads_wf : ∀ s v, json_loads s = Some v → wf_json v = true.
Hypothesis loads_dumps : ∀ v, wf_json v = true → json_loads (json_dumps v) = Some v.
Hypothesis dumps_strip : ∀ v, PyStr.strip (json_dumps v) = json_dumps v.

(** X7: on a store whose services are a hash with one-word fields, the
    exit status is 0 exactly when the nest is found and every text of the
    hash either decodes to an object or does not decode at all; in every
    other case it is 1. *)
Theorem exit_status w :
  store_ok (db w) = true →
  (exit_code (fst (main w)) = 0%Z
   ↔ resolved (lookup_nest (db w)) = true ∧ records_ok (db w) = true)
  ∧ (exit_code (fst (main w)) = 0%Z ∨ exit_code (fst (main w)) = 1%Z).
Proof.
intros Hok.
destruct (resolved (lookup_nest (db w))) eqn:Hres.
- destruct (records_ok (db w)) eqn:Hrec.
  + rewrite (main_spec json_loads json_dumps epoch loads_wf loads_dumps
               dumps_strip _ w Hok Hrec eq_refl Hres).
    cbn; tauto.
  + destruct (first_bad_record _ Hrec) as (h1 & f & s & h2 & Hsv & Hh1 & Hs).
    rewrite (main_abort json_loads json_dumps epoch _ w h1 f s h2
               Hok Hsv Hh1 Hs eq_refl Hres).
    cbn; split; [split; [discriminate | intros [_ [=]]] | auto].
- rewrite (main_not_found json_loads json_dumps epoch w Hres).
  cbn; split; [split; [discriminate | intros [[=] _]] | auto].
Qed.

Local Abbreviation decode_reassigned :=
  (decode_reassigned json_loads json_dumps loads_wf loads_dumps dumps_strip).

(** The entry of a record that decodes, with the readings of the clock
    that went into it. *)
Lemma entries_rewritten_at nest h f s d :
  (f, s) ∈ h → decode s = Some (JDict d) → ∀ t,
  ∃ n, t ≤ n
    ∧ n + 2 ≤ t + 2 * length
        (View.entries json_loads epoch nest
           (map (View.rewrite_record json_loads json_dumps nest) h) t)
    ∧ Script.service_obj f nest (View.reassigned d nest)
        (epoch n * 1000) (epoch (S n) * 1000)
      ∈ View.entries json_loads epoch nest
          (map (View.rewrite_record json_loads json_dumps nest) h) t.
Proof.
induction h as [|fs h IH]; intros Hin Hd t; [inversion Hin|].
cbn [map View.entries].
set (h' := map (View.rewrite_record json_loads json_dumps nest) h) in *.
unfold View.rewrite_record; cbn [fst snd].
apply elem_of_cons in Hin as [<-|Hin]; cbn [fst snd].
- rewrite (decode_reassigned nest s d Hd), get_reassigned, py_eq_str_refl.
  exists t; cbn [length]; split; [lia|]; split; [lia | left].
- destruct (decode (View.reassigned_text json_loads json_dumps nest (snd fs)))
    as [[| | | | |d']|]; try exact (IH Hin Hd t).
  destruct (py_eq_str (PyDict.get d' "nestId" JNull) nest);
    [|exact (IH Hin Hd t)].
  destruct (IH Hin Hd (S (S t))) as (n & Hn & Hlen & H).
  exists n; cbn [length]; split; [lia|]; split; [lia | right; exact H].
Qed.

(** X8: the entry built for a record has the eleven keys of the list in
    their fixed order, carries the field of the hash as [id] and the nest
    id as [nestId], and copies [name], [type], [target], [interval],
    [createdAt], [lastCheck] and [monitoring] from the record when it has
    them, and its [enabled] as [isActive]. *)
Theorem entry_copies_record nest w f s d :
  store_ok (db w) = true → records_ok (db w) = true →
  lookup_nest (db w) = nest → resolved nest = true →
  (f, s) ∈ services (db w) → decode s = Some (JDict d) →
  ∃ count services_list w' e,
    main w = (Ret (count, services_list), w')
    ∧ JDict e ∈ services_list
    ∧ PyDict.keys e
      = ["id"; "nestId"; "name"; "type"; "target"; "interval"; "isActive";
         "createdAt"; "updatedAt"; "lastCheck"; "monitoring"]
    ∧ PyDict.lookup e "id" = Some (JStr f)
    ∧ PyDict.lookup e "nestId" = Some (JStr nest)
    ∧ (∀ k v, k ∈ ["name"; "type"; "target"; "interval"; "createdAt";
                   "lastCheck"; "monitoring"] →
              PyDict.lookup d k = Some v → PyDict.lookup e k = Some v)
    ∧ (∀ v, PyDict.lookup d "enabled" = Some v →
            PyDict.lookup e "isActive" = Some v).
Proof.
intros Hok Hrec Hnest Hres Hin Hd.
destruct (entries_rewritten_at nest _ f s d Hin Hd (clock w))
  as (n & _ & _ & He).
eexists _, _, _, _; split;
  [exact (main_spec json_loads json_dumps epoch loads_wf loads_dumps
            dumps_strip nest w Hok Hrec Hnest Hres)|].
split; [exact He|]; split; [reflexivity|].
cbn [PyDict.lookup String.eqb Ascii.eqb Bool.eqb].
rewrite !get_reassigned_other by discriminate.
unfold PyDict.get; repeat split.
- intros k v Hk Hv.
  repeat (apply elem_of_cons in Hk as [->|Hk];
          [cbn [PyDict.lookup String.eqb Ascii.eqb Bool.eqb];
           rewrite Hv; reflexivity|]).
  inversion Hk.
- intros v ->; reflexivity.
Qed.

(** X9: the [updatedAt] of an entry is a reading of the clock taken
    during the run, in seconds, times 1000; a record without [createdAt]
    gets the reading just before it as [createdAt]. *)
Theorem entry_timestamps nest w f s d :
  store_ok (db w) = true → records_ok (db w) = true →
  lookup_nest (db w) = nest → resolved nest = true →
  (f, s) ∈ services (db w) → decode s = Some (JDict d) →
  ∃ count services_list w' e n,
    main w = (Ret (count, services_list), w')
    ∧ e ∈ services_list
    ∧ field e "id" = Some (JStr f)
    ∧ clock w ≤ n < clock w'
    ∧ field e "updatedAt" = Some (JInt (epoch (S n) * 1000))
    ∧ (PyDict.lookup d "createdAt" = None →
       field e "createdAt" = Some (JInt (epoch n * 1000))).
Proof.
intros Hok Hrec Hnest Hres Hin Hd.
pose proof (main_spec json_loads json_dumps epoch loads_wf loads_dumps
              dumps_strip nest w Hok Hrec Hnest Hres) as Hmain.
destruct (entries_rewritten_at nest _ f s d Hin Hd (clock w))
  as (n & Hn & Hlen & He).
eexists _, _, _, _, n; split; [exact Hmain|].
split; [exact He|]; split; [reflexivity|]; split; [|split].
- unfold View.after_run; cbn [clock]; lia.
- reflexivity.
- cbn [field Script.service_obj PyDict.lookup String.eqb Ascii.eqb Bool.eqb].
  rewrite get_reassigned_other by discriminate.
  unfold PyDict.get; intros ->; reflexivity.
Qed.

End OutcomeFacts.

(** ** The lookup of the nest *)

Section LookupFacts.
Import PyStr.

Lemma strip_chars_fixed p s :
  strip_chars p s = s → lstrip p s = s ∧ rstrip p s = s.
Proof.
unfold strip_chars; intros H.
destruct (lstrip_head p s) as [E | (c & t & E & Hc)].
- rewrite E in H; cbn in H; subst s; auto.
- assert (Hl : lstrip p s = s).
  { rewrite E in H; destruct (rstrip_keeps_head p c t Hc) as [t' Ht].
    rewrite Ht in H; subst s; cbn [lstrip]; rewrite Hc; reflexivity. }
  rewrite Hl in H; auto.
Qed.

(** X10: the nest id is found whether Redis holds it bare or wrapped in
    double quotes, as long as the id itself neither starts nor ends with
    a space or a double quote. *)
Theorem lookup_nest_strips_quotes d id :
  id ≠ EmptyString →
  strip id = id → strip_chars Script.is_dquote id = id →
  d !! Script.nest_email_key = Some (RString id)
  ∨ d !! Script.nest_email_key
    = Some (RString (String "034" (id +:+ String "034" EmptyString))) →
  lookup_nest d = id.
Proof.
intros Hne Hsp Hdq Hd; unfold lookup_nest, Redis.exec.
cbn -[strip strip_chars Script.nest_email_key].
destruct Hd as [-> | ->]; cbn [fst Redis.bulk]; rewrite strip_newline.
- rewrite Hsp; exact Hdq.
- apply strip_chars_fixed in Hdq as [Hl Hr].
  assert (Hs : strip (String "034" (id +:+ String "034" EmptyString))
               = String "034" (id +:+ String "034" EmptyString)).
  { unfold strip, strip_chars; cbn [lstrip].
    change (isspace "034") with false; cbv iota.
    apply (rstrip_last _ _ "034"%char); [|reflexivity].
    apply (last_char_app (String "034" id)). }
  rewrite Hs; unfold strip_chars; cbn [lstrip].
  change (Script.is_dquote "034") with true; cbv iota.
  rewrite lstrip_append, Hl.
  destruct id as [|c id]; [congruence|].
  rewrite rstrip_append_stripped by reflexivity; exact Hr.
Qed.

Lemma lookup_nest_strips_quotes_witness :
  lookup_nest Scenario.two_services = "acct-target".
Proof.
apply lookup_nest_strips_quotes;
  [discriminate | reflexivity | reflexivity | right; reflexivity].
Defined.

End LookupFacts.

(** ** No services, and a second run *)

Section EdgeFacts.

Variable json_loads : string → option json.
Variable json_dumps : json → string.
Variable epoch : nat → Z.

Local Abbreviation main := (Script.main json_loads json_dumps epoch).

(** X11: when the key [scheduler:services] does not exist and the nest is
    found, the run ends normally with the count 0 and an empty list: its
    one write stores the dump of the empty list under the key of the
    nest, and the clock is not read. *)
Theorem no_services_empty_list w :
  db w !! services_key = None →
  resolved (lookup_nest (db w)) = true →
  ∃ w',
    main w = (Ret (0, []), w')
    ∧ db w'
      = <[Script.nest_services_key (lookup_nest (db w))
          := RString (json_dumps (JList []))]> (db w)
    ∧ writes w'
      = writes w
        ++ [["set"; Script.nest_services_key (lookup_nest (db w));
             json_dumps (JList [])]]
    ∧ clock w' = clock w.
Proof.
intros Hnone Hres.
destruct (main w) as [r w'] eqn:Hmain; exists w'.
apply main_stages in Hmain
  as [(Hres' & _) | (_ & out & wh & w0 & r1 & w1 & Hh & Hout & Hd0 & Hc0
                     & Hw0 & H1 & Hrest)]; [congruence|].
assert (Hokh : store_ok (db wh) = true).
{ unfold store_ok, services; rewrite Hh, Hnone; reflexivity. }
rewrite (run_hkeys wh Hokh) in Hout; injection Hout as <-.
assert (Hs : PyStr.split (PyStr.strip
               (String.concat Redis.nl (map fst (services (db wh)))
                +:+ Redis.nl)) = []).
{ unfold services; rewrite Hh, Hnone; reflexivity. }
rewrite Hs in H1, Hrest; clear Hs.
injection H1 as <- <-.
destruct Hrest as [(e & [=] & _) | (c & w1' & r2 & w2 & [= <-] & Hd1 & Hc1
                                    & Hw1 & H2 & Hrest)].
injection H2 as <- <-.
destruct Hrest as [(e & [=] & _) | (l & [= <-] & -> & -> & -> & ->)].
rewrite Hd1, Hd0, Hw1, Hw0, Hc1, Hc0; auto.
Qed.

Hypothesis loads_wf : ∀ s v, json_loads s = Some v → wf_json v = true.
Hypothesis loads_dumps : ∀ v, wf_json v = true → json_loads (json_dumps v) = Some v.
Hypothesis dumps_strip : ∀ v, PyStr.strip (json_dumps v) = json_dumps v.

Lemma not_changed_rewritten nest fs :
  View.is_record json_loads (snd fs) = true →
  View.changed json_loads nest
    (View.rewrite_record json_loads json_dumps nest fs) = false.
Proof.
unfold View.is_record, View.changed, View.rewrite_record; cbn [snd].
destruct (View.decode json_loads (snd fs)) as [[| | | | |d]|] eqn:Hd;
  try discriminate; intros _.
- rewrite (decode_reassigned json_loads json_dumps loads_wf loads_dumps
             dumps_strip nest _ d Hd).
  unfold py_ne_str; rewrite get_reassigned, py_eq_str_refl; reflexivity.
- rewrite decode_reassigned_None, Hd by assumption; reflexivity.
Qed.

Lemma none_changed_rewritten nest (h : list (string * string)) :
  forallb (λ fs, View.is_record json_loads (snd fs)) h = true →
  filter (View.changed json_loads nest)
    (map (View.rewrite_record json_loads json_dumps nest) h) = [].
Proof.
induction h as [|fs h IH]; [reflexivity|].
cbn [forallb map]; rewrite andb_true_iff; intros [Hfs Hh].
rewrite filter_cons, (not_changed_rewritten nest fs Hfs).
rewrite decide_False by exact id; exact (IH Hh).
Qed.

(** X12: a second run right after a first finds nothing to reassign: the
    count it reports is 0, and its list has as many entries as the
    first. *)
Theorem second_run_counts_nothing nest w :
  store_ok (db w) = true → View.records_ok json_loads (db w) = true →
  lookup_nest (db w) = nest → resolved nest = true →
  ∃ count1 list1 w1 list2 w2,
    main w = (Ret (count1, list1), w1)
    ∧ main w1 = (Ret (0, list2), w2)
    ∧ length list2 = length list1.
Proof.
intros Hok Hrec Hnest Hres.
pose proof (main_spec json_loads json_dumps epoch loads_wf loads_dumps
              dumps_strip nest w Hok Hrec Hnest Hres) as Hmain.
pose proof (store_ok_after_run json_loads json_dumps epoch nest w Hok) as Hok1.
pose proof (records_ok_after_run json_loads json_dumps epoch loads_wf
              loads_dumps dumps_strip nest w Hrec) as Hrec1.
pose proof (lookup_nest_after_run json_loads json_dumps epoch nest w) as Hn1.
rewrite Hnest in Hn1.
pose proof (main_spec json_loads json_dumps epoch loads_wf loads_dumps
              dumps_strip nest _ Hok1 Hrec1 Hn1 Hres) as Hmain1.
eexists _, _, _, _, _; split; [exact Hmain|].
rewrite (services_after_run json_loads json_dumps epoch nest w) in Hmain1.
rewrite (rewrite_record_twice json_loads json_dumps loads_wf loads_dumps
           dumps_strip) in Hmain1.
rewrite (none_changed_rewritten nest _ Hrec) in Hmain1.
split; [exact Hmain1|].
rewrite !(entries_length json_loads epoch); reflexivity.
Qed.

End EdgeFacts.

(** ** These facts on the stores of [Scenario] *)

Lemma fields_preserved_witness :
  ∃ w',
    Scenario.main (Scenario.start Scenario.with_list)
    = (Raise AttributeError, w')
    ∧ map fst (services (db w')) = ["svc-a"; "svc-l"; "svc-b"].
Proof.
eexists; split; [vm_compute; reflexivity|].
etransitivity;
  [eapply (fields_preserved RefJson.loads RefJson.dumps Scenario.ticking
             (Scenario.start Scenario.with_list));
   vm_compute; reflexivity
  | reflexivity].
Defined.

Lemma clock_read_twice_per_entry_witness :
  ∃ count services_list w',
    Scenario.main (Scenario.start Scenario.two_services)
    = (Ret (count, services_list), w')
    ∧ length services_list = 2 ∧ clock w' = 4.
Proof.
eexists _, _, _; split; [vm_compute; reflexivity|].
split; [reflexivity|].
etransitivity;
  [eapply (clock_read_twice_per_entry RefJson.loads RefJson.dumps
             Scenario.ticking (Scenario.start Scenario.two_services));
   vm_compute; reflexivity
  | reflexivity].
Defined.

Lemma exit_status_witness :
  exit_code (fst (Scenario.main (Scenario.start Scenario.with_list))) = 1%Z.
Proof.
destruct (exit_status RefJson.loads RefJson.dumps Scenario.ticking
            ref_loads_wf ref_loads_dumps ref_dumps_strip
            (Scenario.start Scenario.with_list))
  as [Hiff [H0|H1]]; [vm_compute; reflexivity | | exact H1].
apply Hiff in H0 as [_ H0]; vm_compute in H0; discriminate H0.
Defined.

Lemma entry_copies_record_witness :
  ∃ count services_list w' e,
    Scenario.main (Scenario.start Scenario.two_services)
    = (Ret (count, services_list), w')
    ∧ JDict e ∈ services_list
    ∧ PyDict.lookup e "id" = Some (JStr "svc-a")
    ∧ PyDict.lookup e "name" = Some (JStr "api")
    ∧ PyDict.lookup e "createdAt" = Some (JInt 1690000000000).
Proof.
destruct (entry_copies_record RefJson.loads RefJson.dumps Scenario.ticking
            ref_loads_wf ref_loads_dumps ref_dumps_strip
            "acct-target" (Scenario.start Scenario.two_services)
            "svc-a" (RefJson.dumps Scenario.svc_a)
            [("name", JStr "api"); ("type", JStr "http");
             ("target", JStr "https://a.example"); ("nestId", JStr "acct-old");
             ("interval", JInt 30); ("createdAt", JInt 1690000000000)])
  as (count & l & w' & e & Hmain & He & _ & Hid & _ & Hcopy & _);
  [vm_compute; reflexivity.. | exact svc_a_stored | exact svc_a_decodes |].
exists count, l, w', e; split; [exact Hmain|]; split; [exact He|].
split; [exact Hid|]; split; apply Hcopy; try reflexivity.
- left.
- do 4 right; left.
Defined.

Lemma entry_timestamps_witness :
  ∃ count services_list w' e n,
    Scenario.main (Scenario.start Scenario.two_services)
    = (Ret (count, services_list), w')
    ∧ e ∈ services_list
    ∧ field e "id" = Some (JStr "svc-b")
    ∧ field e "updatedAt" = Some (JInt (Scenario.ticking (S n) * 1000))
    ∧ field e "createdAt" = Some (JInt (Scenario.ticking n * 1000)).
Proof.
destruct (entry_timestamps RefJson.loads RefJson.dumps Scenario.ticking
            ref_loads_wf ref_loads_dumps ref_dumps_strip
            "acct-target" (Scenario.start Scenario.two_services)
            "svc-b" (RefJson.dumps Scenario.svc_b)
            [("nestId", JStr "acct-target"); ("enabled", JBool false)])
  as (count & l & w' & e & n & Hmain & He & Hid & _ & Hup & Hcr);
  [vm_compute; reflexivity.. | exact svc_b_stored | exact svc_b_decodes |].
exists count, l, w', e, n; repeat split; auto.
Defined.

Lemma no_services_empty_list_witness :
  ∃ w',
    Script.main RefJson.loads RefJson.dumps Scenario.ticking
      (Scenario.start (list_to_map [Scenario.nest_lookup]))
    = (Ret (0, []), w')
    ∧ db w' !! "nest:acct-target:services" = Some (RString "[]").
Proof.
destruct (no_services_empty_list RefJson.loads RefJson.dumps Scenario.ticking
            (Scenario.start (list_to_map [Scenario.nest_lookup])))
  as (w' & Hmain & Hdb & _); [reflexivity | vm_compute; reflexivity |].
exists w'; split; [exact Hmain|]; rewrite Hdb; reflexivity.
Defined.

Lemma second_run_counts_nothing_witness :
  ∃ list1 w1 list2 w2,
    Scenario.main (Scenario.start Scenario.two_services)
    = (Ret (1, list1), w1)
    ∧ Scenario.main w1 = (Ret (0, list2), w2).
Proof.
destruct (second_run_counts_nothing RefJson.loads RefJson.dumps
            Scenario.ticking ref_loads_wf ref_loads_dumps ref_dumps_strip
            "acct-target" (Scenario.start Scenario.two_services))
  as (c1 & l1 & w1 & l2 & w2 & H1 & H2 & _); [vm_compute; reflexivity..|].
exists l1, w1, l2, w2; split; [|exact H2].
unfold Scenario.main; rewrite H1.
assert (Hc : c1 = 1).
{ apply (f_equal fst) in H1; vm_compute in H1; injection H1 as <- _.
  reflexivity. }
rewrite Hc; reflexivity.
Defined.
